(** * qilowatt-ha: the Huawei inverter adapter

    A shallow embedding of
    [custom_components/qilowatt/inverter/huawei.py] and the properties of
    its entity discovery, entity resolution, typed state extraction and
    record composition.

    Layout:
    - [Py]: the pieces of the Python runtime the adapter relies on
      ([str.endswith], [float(str)], [int(float)], insertion-ordered
      [dict], exceptions);
    - [er], [dr], [core]: the Home Assistant registries and state machine,
      as far as the adapter reads them;
    - [qilowatt]: the two payload records of the telemetry library;
    - [Huawei]: the class [HuaweiInverter], method by method;
    - the theorems. *)

From Stdlib Require Import ZArith String Ascii List Bool Floats Lia.
From stdpp Require Import base option list strings gmap.
Import ListNotations.

(* ===================================================================== *)
(** * The Python runtime *)
(* ===================================================================== *)

Module Py.

(** Exceptions that the builtins used by the adapter can raise. *)
Inductive exn : Type :=
  | ValueError
  | OverflowError
  | AttributeError.

(** The result of evaluating a builtin: a value or a raised exception. *)
Inductive result (A : Type) : Type :=
  | Ok (a : A)
  | Err (e : exn).
Arguments Ok {A} a.
Arguments Err {A} e.

(** ** Strings

    Python [str] values are modelled as Rocq strings (byte sequences; for
    text outside ASCII, the UTF-8 encoding). *)

(** [s.endswith(suffix)]: some tail of [s] is [suffix]. *)
Fixpoint endswith (s suffix : string) : bool :=
  String.eqb s suffix ||
  match s with
  | EmptyString => false
  | String _ s' => endswith s' suffix
  end.

(** [x in (a, b, ...)] for strings. *)
Definition str_in (x : string) (t : list string) : bool :=
  existsb (String.eqb x) t.

(** [not x] for an optional value whose present values are all truthy. *)
Definition not_ {A : Type} (x : option A) : bool :=
  match x with
  | None => true
  | Some _ => false
  end.

(** ** Insertion-ordered dictionaries with string keys

    A [dict] keeps its keys in the order of their first insertion;
    assigning to a key that is present replaces the value in place. *)
Definition dict (V : Type) : Type := list (string * V).

Fixpoint dict_set {V : Type} (k : string) (v : V) (d : dict V) : dict V :=
  match d with
  | [] => [(k, v)]
  | (k', v') :: d' =>
      if String.eqb k' k then (k', v) :: d' else (k', v') :: dict_set k v d'
  end.

Fixpoint dict_get {V : Type} (k : string) (d : dict V) : option V :=
  match d with
  | [] => None
  | (k', v') :: d' => if String.eqb k' k then Some v' else dict_get k d'
  end.

(** Iterating a dict yields its keys, in insertion order. *)
Definition dict_keys {V : Type} (d : dict V) : list string := map fst d.

(** ** [float(str)]

    CPython's [float] on a string: surrounding whitespace is stripped,
    single underscores between digits are dropped, then the text must be
    an optionally signed decimal literal with optional fraction and
    exponent, or (in any letter case) [inf], [infinity] or [nan]. Anything
    else raises [ValueError]. The decimal value is rounded to the nearest
    binary64 number, ties to even; overflow gives an infinity.

    The model is exact on ASCII text. It reads every byte above 127 as a
    non-numeric character, whereas CPython also accepts the decimal
    digits and the whitespace of Unicode. *)

Definition is_space (c : ascii) : bool :=
  let n := nat_of_ascii c in
  ((9 <=? n) && (n <=? 13) || (n =? 32))%nat.

Definition is_digit (c : ascii) : bool :=
  let n := nat_of_ascii c in
  ((48 <=? n) && (n <=? 57))%nat.

Definition digit_value (c : ascii) : Z :=
  Z.of_nat (nat_of_ascii c - 48).

Definition lower (c : ascii) : ascii :=
  let n := nat_of_ascii c in
  if ((65 <=? n) && (n <=? 90))%nat then ascii_of_nat (n + 32) else c.

Fixpoint lstrip (l : list ascii) : list ascii :=
  match l with
  | c :: l' => if is_space c then lstrip l' else l
  | [] => []
  end.

Definition strip (l : list ascii) : list ascii :=
  rev (lstrip (rev (lstrip l))).

(** An underscore must have a digit before it and a digit after it; the
    text with its underscores removed, or [None]. *)
Fixpoint drop_underscores (prev : ascii) (l : list ascii)
  : option (list ascii) :=
  match l with
  | [] => if Ascii.eqb prev "_" then None else Some []
  | c :: l' =>
      if Ascii.eqb c "_" then
        if is_digit prev then drop_underscores c l' else None
      else if Ascii.eqb prev "_" && negb (is_digit c) then None
      else option_map (cons c) (drop_underscores c l')
  end.

(** The longest run of digits at the front, and what follows it. *)
Fixpoint span_digits (l : list ascii) : list ascii * list ascii :=
  match l with
  | c :: l' =>
      if is_digit c
      then let '(ds, r) := span_digits l' in (c :: ds, r)
      else ([], l)
  | [] => ([], [])
  end.

Definition decimal_value (ds : list ascii) : Z :=
  fold_left (fun acc c => 10 * acc + digit_value c)%Z ds 0%Z.

Definition split_sign (l : list ascii) : bool * list ascii :=
  match l with
  | "+"%char :: r => (false, r)
  | "-"%char :: r => (true, r)
  | _ => (false, l)
  end.

(** What follows the mantissa: nothing, or a complete exponent. *)
Definition parse_exponent (l : list ascii) : option Z :=
  match l with
  | [] => Some 0%Z
  | c :: l' =>
      if Ascii.eqb (lower c) "e" then
        let '(neg, l'') := split_sign l' in
        match span_digits l'' with
        | ((_ :: _) as ds, []) =>
            Some (if neg then - decimal_value ds else decimal_value ds)%Z
        | _ => None
        end
      else None
  end.

(** The binary64 number nearest to [±m * 10^e] (for [m >= 0]). *)
Definition decimal_to_float (neg : bool) (m e : Z) : float :=
  SF2Prim
    match m with
    | Zpos p =>
        if (0 <=? e)%Z
        then binary_normalize prec emax
               (if neg then Zneg p * 10 ^ e else Zpos p * 10 ^ e)%Z 0%Z false
        else SFdiv prec emax
               (S754_finite neg p 0%Z)
               (S754_finite false (Z.to_pos (10 ^ (- e))) 0%Z)
    | _ => S754_zero neg
    end.

Definition parse_number (neg : bool) (l : list ascii) : option float :=
  let '(ip, r1) := span_digits l in
  let '(fp, r2) :=
    match r1 with
    | "."%char :: r => span_digits r
    | _ => ([], r1)
    end in
  match ip ++ fp with
  | [] => None
  | ds =>
      match parse_exponent r2 with
      | Some e =>
          Some (decimal_to_float neg (decimal_value ds)
                  (e - Z.of_nat (length fp)))
      | None => None
      end
  end.

Definition parse_inf_or_nan (neg : bool) (l : list ascii) : option float :=
  let w := string_of_list_ascii (map lower l) in
  if str_in w ["inf"; "infinity"] then
    Some (if neg then neg_infinity else infinity)
  else if String.eqb w "nan" then Some nan
  else None.

Definition float_of_str (s : string) : result float :=
  match drop_underscores Ascii.zero (strip (list_ascii_of_string s)) with
  | None => Err ValueError
  | Some l =>
      let '(neg, body) := split_sign l in
      match parse_number neg body with
      | Some f => Ok f
      | None =>
          match parse_inf_or_nan neg body with
          | Some f => Ok f
          | None => Err ValueError
          end
      end
  end.

(** ** [int(float)]

    Truncation toward zero of a finite value, as an unbounded integer;
    [OverflowError] on an infinity and [ValueError] on a NaN. *)
Definition int_of_float (f : float) : result Z :=
  match Prim2SF f with
  | S754_zero _ => Ok 0%Z
  | S754_infinity _ => Err OverflowError
  | S754_nan => Err ValueError
  | S754_finite s m e =>
      let magnitude :=
        match e with
        | Zneg k => Z.quot (Zpos m) (2 ^ Zpos k)
        | _ => (Zpos m * 2 ^ e)%Z
        end in
      Ok (if s then - magnitude else magnitude)%Z
  end.

End Py.

(* ===================================================================== *)
(** * Home Assistant: registries and state machine *)
(* ===================================================================== *)

(** [homeassistant.helpers.entity_registry] *)
Module er.

Inductive RegistryEntryDisabler : Type :=
  | CONFIG_ENTRY | DEVICE | HASS | INTEGRATION | USER.

(** An entity of the registry. [disabled_by] is [None] for an enabled
    entity; every member of the enumeration is truthy. *)
Record RegistryEntry : Type := {
  entity_id : string;
  device_id : option string;
  disabled_by : option RegistryEntryDisabler;
}.

End er.

(** [homeassistant.helpers.device_registry] *)
Module dr.

Record DeviceEntry : Type := {
  id : string;
  via_device_id : option string;
}.

End dr.

(** [homeassistant.core] *)
Module core.

(** A state object; the adapter reads its [state] text only. *)
Record State : Type := { state : string }.

(** The part of [hass] the adapter reads: [entity_registry] is
    [er.async_get(hass).entities.values()] and [device_registry] is
    [dr.async_get(hass).devices.values()], both in iteration order;
    [states !! k] is [hass.states.get(k)]. *)
Record HomeAssistant : Type := {
  entity_registry : list er.RegistryEntry;
  device_registry : list dr.DeviceEntry;
  states : gmap string State;
}.

End core.

(* ===================================================================== *)
(** * The payload records of the [qilowatt] library *)
(* ===================================================================== *)

Module qilowatt.

Record EnergyData : Type := {
  Power : list float;
  Today : Z;
  Total : float;
  Current : list float;
  Voltage : list float;
  Frequency : float;
}.

Record MetricsData : Type := {
  PvPower : list float;
  PvVoltage : list float;
  PvCurrent : list float;
  LoadPower : list float;
  AlarmCodes : list Z;
  BatterySOC : Z;
  LoadCurrent : list float;
  BatteryPower : list float;
  BatteryCurrent : list float;
  BatteryVoltage : list float;
  InverterStatus : Z;
  GridExportLimit : float;
  BatteryTemperature : list float;
  InverterTemperature : float;
}.

End qilowatt.

(* ===================================================================== *)
(** * class HuaweiInverter *)
(* ===================================================================== *)

Module Huawei.

Import qilowatt.

(** The instance attributes the class assigns. [voltage] does not exist
    until [get_energy_data] has run once. What [BaseInverter.__init__]
    stores is neither read nor written by the methods below. *)
Record HuaweiInverter : Type := {
  hass : core.HomeAssistant;
  device_id : string;
  all_entities : Py.dict er.RegistryEntry;
  voltage : option (list float);
}.

(** ** Methods as computations over [self]

    A method call ends by returning a value or by raising; either way it
    leaves behind the instance as it is at that point. *)
Inductive outcome (A : Type) : Type :=
  | Returns (v : A) (self : HuaweiInverter)
  | Raises (e : Py.exn) (self : HuaweiInverter).
Arguments Returns {A} v self.
Arguments Raises {A} e self.

Definition method (A : Type) : Type := HuaweiInverter → outcome A.

#[global] Instance method_ret : MRet method :=
  λ A v self, Returns v self.

#[global] Instance method_bind : MBind method :=
  λ A B f m self,
    match m self with
    | Returns v self' => f v self'
    | Raises e self' => Raises e self'
    end.

(** Reading [self]. *)
Definition get_self : method HuaweiInverter :=
  λ self, Returns self self.

(** [self.voltage = v] *)
Definition set_voltage (v : list float) : method unit :=
  λ self,
    Returns tt {| hass := hass self;
                  device_id := device_id self;
                  all_entities := all_entities self;
                  voltage := Some v |}.

(** Reading [self.voltage]. *)
Definition get_voltage : method (list float) :=
  λ self,
    match voltage self with
    | Some v => Returns v self
    | None => Raises Py.AttributeError self
    end.

(** Calling a builtin. *)
Definition builtin {A : Type} (r : Py.result A) : method A :=
  λ self,
    match r with
    | Py.Ok a => Returns a self
    | Py.Err e => Raises e self
    end.

(** [try: body  except ValueError: handler] *)
Definition try_except_ValueError {A : Type} (body handler : method A)
  : method A :=
  λ self,
    match body self with
    | Raises Py.ValueError self' => handler self'
    | o => o
    end.

(** ** collect_device_entities *)

(** [entity.device_id == dev and not entity.disabled_by] *)
Definition enabled_on (dev : string) (entity : er.RegistryEntry) : bool :=
  bool_decide (er.device_id entity = Some dev)
  && Py.not_ (er.disabled_by entity).

(** The loop [for entity in entities: if ...: all_entities[entity.entity_id]
    = entity], run for the device [dev]. *)
Definition add_enabled (dev : string) (entities : list er.RegistryEntry)
    (all_entities : Py.dict er.RegistryEntry) : Py.dict er.RegistryEntry :=
  fold_left
    (λ acc entity,
       if enabled_on dev entity
       then Py.dict_set (er.entity_id entity) entity acc
       else acc)
    entities all_entities.

(** [sum(1 for e in entities if ...)] *)
Definition enabled_count (dev : string) (entities : list er.RegistryEntry)
  : nat :=
  list_sum (map (λ _, 1) (List.filter (enabled_on dev) entities)).

(** The body of the loop over the devices, for one [device]. *)
Definition add_child (device_id : string) (entities : list er.RegistryEntry)
    (all_entities : Py.dict er.RegistryEntry) (device : dr.DeviceEntry)
  : Py.dict er.RegistryEntry :=
  if bool_decide (dr.via_device_id device = Some device_id) then
    if (0 <? enabled_count (dr.id device) entities)%nat
    then (* Only include devices with enabled entities *)
      add_enabled (dr.id device) entities all_entities
    else all_entities
  else all_entities.

Definition collect_device_entities (h : core.HomeAssistant)
    (device_id : string) : Py.dict er.RegistryEntry :=
  let entities := core.entity_registry h in
  (* Add main device entities *)
  let all_entities := add_enabled device_id entities [] in
  (* Add child device entities (only those with enabled entities) *)
  fold_left (add_child device_id entities) (core.device_registry h)
    all_entities.

(** [__init__], with [config_entry.data["device_id"]] passed in. *)
Definition init (h : core.HomeAssistant) (config_device_id : string)
  : HuaweiInverter :=
  {| hass := h;
     device_id := config_device_id;
     all_entities := collect_device_entities h config_device_id;
     voltage := None |}.

(** ** find_entity_state *)

(** The loop over the keys of [all_entities]: the first key that ends
    with [entity_id] decides. *)
Fixpoint search (st : gmap string core.State) (keys : list string)
    (entity_id : string) : option core.State :=
  match keys with
  | [] => None
  | full_entity_id :: keys' =>
      if Py.endswith full_entity_id entity_id
      then st !! full_entity_id
      else search st keys' entity_id
  end.

Definition find_entity_state (entity_id : string)
  : method (option core.State) :=
  self ← get_self;
  (* Special case for number entities *)
  if String.eqb entity_id "inverter_power_derating" then
    mret (core.states (hass self) !! "number.inverter_power_derating")
  else
    (* Search through all collected entities *)
    mret (search (core.states (hass self))
            (Py.dict_keys (all_entities self)) entity_id).

(** ** Typed extraction *)

(** [state.state not in ("unknown", "unavailable", "")] *)
Definition has_data (s : core.State) : bool :=
  negb (Py.str_in (core.state s) ["unknown"; "unavailable"; ""]).

Definition get_state_float (entity_id : string) (default : float)
  : method float :=
  state ← find_entity_state entity_id;
  match state with
  | Some s =>
      if has_data s then
        try_except_ValueError
          (builtin (Py.float_of_str (core.state s)))
          (mret default)
      else mret default
  | None => mret default
  end.

Definition get_state_int (entity_id : string) (default : Z) : method Z :=
  state ← find_entity_state entity_id;
  match state with
  | Some s =>
      if has_data s then
        try_except_ValueError
          (f ← builtin (Py.float_of_str (core.state s));
           builtin (Py.int_of_float f))
          (mret default)
      else mret default
  | None => mret default
  end.

(** The tuple of [get_state_text] also lists [None], which no state text
    equals. *)
Definition get_state_text (entity_id : string) (default : string)
  : method string :=
  state ← find_entity_state entity_id;
  match state with
  | Some s => if has_data s then mret (core.state s) else mret default
  | None => mret default
  end.

(** ** get_energy_data *)

Definition get_energy_data : method EnergyData :=
  power_a ← get_state_float "power_meter_phase_a_active_power" 0;
  power_b ← get_state_float "power_meter_phase_b_active_power" 0;
  power_c ← get_state_float "power_meter_phase_c_active_power" 0;
  let power := [power_a * -1; power_b * -1; power_c * -1]%float in
  let today := 0%Z in
  consumption ← get_state_float "power_meter_consumption" 0;
  let total := (consumption * -1)%float in
  voltage_a ← get_state_float "power_meter_phase_a_voltage" 0;
  voltage_b ← get_state_float "power_meter_phase_b_voltage" 0;
  voltage_c ← get_state_float "power_meter_phase_c_voltage" 0;
  set_voltage [voltage_a; voltage_b; voltage_c];;
  current_a ← get_state_float "power_meter_phase_a_current" 0;
  current_b ← get_state_float "power_meter_phase_b_current" 0;
  current_c ← get_state_float "power_meter_phase_c_current" 0;
  let current := [current_a; current_b; current_c] in
  frequency ← get_state_float "power_meter_frequency" 0;
  self_voltage ← get_voltage;
  mret {| Power := power;
          Today := today;
          Total := total;
          Current := current;
          Voltage := self_voltage;
          Frequency := frequency |}.

(** ** get_metrics_data *)

Definition get_metrics_data : method MetricsData :=
  (* Calculate PV Power for each string *)
  pv_voltage_1 ← get_state_float "pv_1_voltage" 0;
  pv_current_1 ← get_state_float "pv_1_current" 0;
  pv_voltage_2 ← get_state_float "pv_2_voltage" 0;
  pv_current_2 ← get_state_float "pv_2_current" 0;
  let pv_power :=
    [pv_voltage_1 * pv_current_1; pv_voltage_2 * pv_current_2]%float in
  let pv_voltage := [pv_voltage_1; pv_voltage_2] in
  let pv_current := [pv_current_1; pv_current_2] in
  (* Load Power and Current *)
  inverter_active_power ← get_state_float "active_power" 0;
  power_meter_active_power ← get_state_float "power_meter_active_power" 0;
  let load_power_total :=
    (inverter_active_power - power_meter_active_power)%float in
  let load_power := [load_power_total] in
  let load_current := [0; 0; 0]%float in
  (* Battery metrics *)
  battery_power ← get_state_float "charge_discharge_power" 0;
  battery_current ← get_state_float "bus_current" 0;
  battery_voltage ← get_state_float "bus_voltage" 0;
  battery_soc ← get_state_int "state_of_capacity" 0;
  battery_temperature ← get_state_float "battery_1_bms_temperature" 0;
  (* Inverter metrics *)
  let inverter_status := 2%Z in
  inverter_temperature ← get_state_float "internal_temperature" 0;
  let alarm_codes := [0; 0; 0; 0; 0; 0]%Z in
  grid_export_limit ← get_state_float "inverter_power_derating" 0;
  mret {| PvPower := pv_power;
          PvVoltage := pv_voltage;
          PvCurrent := pv_current;
          LoadPower := load_power;
          AlarmCodes := alarm_codes;
          BatterySOC := battery_soc;
          LoadCurrent := load_current;
          BatteryPower := [battery_power];
          BatteryCurrent := [battery_current];
          BatteryVoltage := [battery_voltage];
          InverterStatus := inverter_status;
          GridExportLimit := grid_export_limit;
          BatteryTemperature := [battery_temperature];
          InverterTemperature := inverter_temperature |}.

End Huawei.

(* ===================================================================== *)
(** * Vocabulary of the statements, and a sample installation *)
(* ===================================================================== *)

(** What a binding of the Collected Entity Set is: an enabled entity of
    the registry, owned by the root device or by one of [devices] whose
    parent is the root device. *)
Definition collected_from (root : string) (entities : list er.RegistryEntry)
    (devices : list dr.DeviceEntry) (e : er.RegistryEntry) : Prop :=
  e ∈ entities ∧ er.disabled_by e = None ∧
  (er.device_id e = Some root ∨
   ∃ d, d ∈ devices ∧ dr.via_device_id d = Some root
        ∧ er.device_id e = Some (dr.id d)).

(** The value a call returns, or [default] when it raises. *)
Definition value_or {A : Type} (default : A) (o : Huawei.outcome A) : A :=
  match o with
  | Huawei.Returns v _ => v
  | Huawei.Raises _ _ => default
  end.

(** What the logical name [name] resolves to on [self]. *)
Definition resolved (self : Huawei.HuaweiInverter) (name : string)
  : option core.State :=
  value_or None (Huawei.find_entity_state name self).

(** The float read for [name] on [self]. *)
Definition float_read (self : Huawei.HuaweiInverter) (name : string)
    (default : float) : float :=
  value_or default (Huawei.get_state_float name default self).

(** [self] with its [voltage] attribute replaced. *)
Definition with_voltage (v : option (list float))
    (self : Huawei.HuaweiInverter) : Huawei.HuaweiInverter :=
  {| Huawei.hass := Huawei.hass self;
     Huawei.device_id := Huawei.device_id self;
     Huawei.all_entities := Huawei.all_entities self;
     Huawei.voltage := v |}.

(** The state texts that stand for missing data. *)
Definition sentinels : list string := ["unknown"; "unavailable"; ""].

(** [suffix] is a string suffix of [s]. *)
Definition ends_with (s suffix : string) : Prop :=
  ∃ p, s = p +:+ suffix.

(** An inverter with a grid meter and a battery behind it, an optimizer
    whose entities are all disabled, and an unrelated device. *)
Module Sample.

Definition entity (entity_id device : string)
    (disabled_by : option er.RegistryEntryDisabler) : er.RegistryEntry :=
  {| er.entity_id := entity_id;
     er.device_id := Some device;
     er.disabled_by := disabled_by |}.

Definition entities : list er.RegistryEntry :=
  [ entity "sensor.inverter_active_power" "inv" None;
    entity "sensor.other_power_meter_phase_a_active_power" "other" None;
    entity "sensor.inverter_pv_1_voltage" "inv" None;
    entity "sensor.inverter_pv_1_current" "inv" None;
    entity "sensor.inverter_pv_2_voltage" "inv" None;
    entity "sensor.inverter_pv_2_current" "inv" None;
    entity "sensor.inverter_efficiency" "inv" (Some er.USER);
    entity "sensor.inverter_internal_temperature" "inv" None;
    entity "sensor.inverter_power_meter_frequency" "inv" None;
    entity "sensor.meter_power_meter_active_power" "meter" None;
    entity "sensor.meter_power_meter_phase_a_active_power" "meter" None;
    entity "sensor.meter_power_meter_phase_b_active_power" "meter" None;
    entity "sensor.meter_power_meter_phase_c_active_power" "meter" None;
    entity "sensor.meter_power_meter_consumption" "meter" None;
    entity "sensor.meter_power_meter_frequency" "meter" None;
    entity "sensor.battery_state_of_capacity" "battery" None;
    entity "sensor.battery_bus_voltage" "battery" None;
    entity "sensor.optimizer_power" "optimizer" (Some er.INTEGRATION) ].

Definition devices : list dr.DeviceEntry :=
  [ {| dr.id := "inv"; dr.via_device_id := None |};
    {| dr.id := "meter"; dr.via_device_id := Some "inv" |};
    {| dr.id := "battery"; dr.via_device_id := Some "inv" |};
    {| dr.id := "optimizer"; dr.via_device_id := Some "inv" |};
    {| dr.id := "other"; dr.via_device_id := None |} ].

Definition text (s : string) : core.State := {| core.state := s |}.

(** [sensor.inverter_power_meter_frequency] has never reported. *)
Definition states (state_of_capacity : string) : gmap string core.State :=
  list_to_map
    [ ("sensor.inverter_active_power", text "5000");
      ("sensor.other_power_meter_phase_a_active_power", text "1");
      ("sensor.inverter_pv_1_voltage", text "40");
      ("sensor.inverter_pv_1_current", text "5");
      ("sensor.inverter_pv_2_voltage", text "0");
      ("sensor.inverter_pv_2_current", text "0");
      ("sensor.inverter_internal_temperature", text "N/A");
      ("sensor.meter_power_meter_active_power", text "-1200");
      ("sensor.meter_power_meter_phase_a_active_power", text "100");
      ("sensor.meter_power_meter_phase_b_active_power", text "200");
      ("sensor.meter_power_meter_phase_c_active_power", text "300");
      ("sensor.meter_power_meter_consumption", text "1500.5");
      ("sensor.meter_power_meter_frequency", text "50");
      ("sensor.battery_state_of_capacity", text state_of_capacity);
      ("sensor.battery_bus_voltage", text "12.7");
      ("number.inverter_power_derating", text "8000") ].

Definition home (state_of_capacity : string) : core.HomeAssistant :=
  {| core.entity_registry := entities;
     core.device_registry := devices;
     core.states := states state_of_capacity |}.

(** The adapter as constructed, with the battery at 87 percent. *)
Definition inverter : Huawei.HuaweiInverter :=
  Huawei.init (home "87") "inv".

(** The same installation with a battery sensor that reports [inf]. *)
Definition inverter_inf : Huawei.HuaweiInverter :=
  Huawei.init (home "inf") "inv".

(** The same installation with a battery sensor that reports [nan]. *)
Definition inverter_nan : Huawei.HuaweiInverter :=
  Huawei.init (home "nan") "inv".

(** An adapter configured with a device id the registries do not know. *)
Definition stranger : Huawei.HuaweiInverter :=
  Huawei.init (home "87") "no such device".

(** An adapter whose Collected Entity Set holds a key that ends with the
    derating name, next to the global derating entity. *)
Definition decoy : Huawei.HuaweiInverter :=
  {| Huawei.hass :=
       {| core.entity_registry := [];
          core.device_registry := [];
          core.states :=
            list_to_map
              [ ("sensor.meter_inverter_power_derating", text "1");
                ("number.inverter_power_derating", text "8000") ] |};
     Huawei.device_id := "inv";
     Huawei.all_entities :=
       [ ("sensor.meter_inverter_power_derating",
          entity "sensor.meter_inverter_power_derating" "meter" None) ];
     Huawei.voltage := None |}.

(** An installation whose grid meter reports its three phase voltages
    and currents and the grid frequency, each with a value of its own. *)
Definition grid_home : core.HomeAssistant :=
  {| core.entity_registry :=
       [ entity "sensor.meter_power_meter_phase_a_voltage" "meter" None;
         entity "sensor.meter_power_meter_phase_b_voltage" "meter" None;
         entity "sensor.meter_power_meter_phase_c_voltage" "meter" None;
         entity "sensor.meter_power_meter_phase_a_current" "meter" None;
         entity "sensor.meter_power_meter_phase_b_current" "meter" None;
         entity "sensor.meter_power_meter_phase_c_current" "meter" None;
         entity "sensor.meter_power_meter_frequency" "meter" None ];
     core.device_registry :=
       [ {| dr.id := "inv"; dr.via_device_id := None |};
         {| dr.id := "meter"; dr.via_device_id := Some "inv" |} ];
     core.states :=
       list_to_map
         [ ("sensor.meter_power_meter_phase_a_voltage", text "230");
           ("sensor.meter_power_meter_phase_b_voltage", text "231.5");
           ("sensor.meter_power_meter_phase_c_voltage", text "233");
           ("sensor.meter_power_meter_phase_a_current", text "1.5");
           ("sensor.meter_power_meter_phase_b_current", text "2.25");
           ("sensor.meter_power_meter_phase_c_current", text "3");
           ("sensor.meter_power_meter_frequency", text "50.25") ] |}.

Definition grid_inverter : Huawei.HuaweiInverter :=
  Huawei.init grid_home "inv".

(** An adapter that has collected the grid meter's total power but no
    active power entity of the inverter itself. *)
Definition meter_only : Huawei.HuaweiInverter :=
  {| Huawei.hass :=
       {| core.entity_registry := [];
          core.device_registry := [];
          core.states :=
            list_to_map
              [ ("sensor.meter_power_meter_active_power", text "-1200") ] |};
     Huawei.device_id := "inv";
     Huawei.all_entities :=
       [ ("sensor.meter_power_meter_active_power",
          entity "sensor.meter_power_meter_active_power" "meter" None) ];
     Huawei.voltage := None |}.

End Sample.

(* ===================================================================== *)
(** * Facts about the runtime model *)
(* ===================================================================== *)

Section runtime_facts.

Import Py.

(** [endswith] decides the suffix relation on strings. *)
Lemma endswith_spec (s suffix : string) :
  endswith s suffix = true ↔ ∃ p, s = p +:+ suffix.
Proof.
  induction s as [|a s IH]; cbn [endswith].
  - rewrite orb_false_r, String.eqb_eq. split.
    + intros <-. by exists "".
    + intros [[|b p] Hp]; simpl in Hp; [done | discriminate].
  - rewrite orb_true_iff, String.eqb_eq, IH. split.
    + intros [<- | [p ->]]; [by exists "" | by exists (String a p)].
    + intros [[|b p] Hp]; simpl in Hp; [by left | right].
      injection Hp as _ ->. by exists p.
Qed.

Lemma endswith_false (s suffix : string) :
  endswith s suffix = false ↔ ¬ ∃ p, s = p +:+ suffix.
Proof.
  rewrite <- endswith_spec. by destruct (endswith s suffix).
Qed.

Context {V : Type}.
Implicit Types (d : dict V) (k : string) (v : V).

Lemma dict_get_set k0 k v d :
  dict_get k (dict_set k0 v d)
  = if String.eqb k0 k then Some v else dict_get k d.
Proof.
  induction d as [|[k' v'] d IH]; simpl.
  - by destruct (String.eqb_spec k0 k).
  - destruct (String.eqb_spec k' k0) as [->|Hne]; simpl.
    + by destruct (String.eqb_spec k0 k).
    + rewrite IH.
      destruct (String.eqb_spec k' k) as [->|]; [|done].
      by destruct (String.eqb_spec k0 k).
Qed.

Lemma dict_get_is_Some k d : is_Some (dict_get k d) ↔ k ∈ dict_keys d.
Proof.
  induction d as [|[k' v'] d IH]; simpl.
  - rewrite elem_of_nil. split; [by intros [? ?] | done].
  - rewrite elem_of_cons, <- IH.
    destruct (String.eqb_spec k' k) as [->|Hne].
    + split; eauto.
    + split; [by right | by intros [->|?]].
Qed.

Lemma dict_set_fresh k v d :
  k ∉ dict_keys d → dict_set k v d = d ++ [(k, v)].
Proof.
  induction d as [|[k' v'] d IH]; simpl; [done|].
  rewrite not_elem_of_cons. intros [Hne Hnin].
  destruct (String.eqb_spec k' k); [done|]. by rewrite IH.
Qed.

Lemma dict_set_present k v d :
  k ∈ dict_keys d → dict_keys (dict_set k v d) = dict_keys d.
Proof.
  induction d as [|[k' v'] d IH]; simpl.
  - by intros ?%elem_of_nil.
  - rewrite elem_of_cons. intros Hin.
    destruct (String.eqb_spec k' k) as [->|Hne]; simpl; [done|].
    rewrite IH; [done|]. by destruct Hin as [->|?].
Qed.

(** Assignment keeps the keys of a dict pairwise distinct. *)
Lemma dict_set_NoDup k v d :
  NoDup (dict_keys d) → NoDup (dict_keys (dict_set k v d)).
Proof.
  intros Hnd. destruct (decide (k ∈ dict_keys d)) as [Hin|Hnin].
  - by rewrite dict_set_present.
  - rewrite dict_set_fresh by done. unfold dict_keys.
    rewrite map_app. apply NoDup_app. split_and!; [done | | apply NoDup_singleton].
    simpl. intros x Hx ->%list_elem_of_singleton. done.
Qed.

End runtime_facts.

(* ===================================================================== *)
(** * The Collected Entity Set *)
(* ===================================================================== *)

Section collect_facts.

Import Py Huawei.

Implicit Types (e entity : er.RegistryEntry) (acc : dict er.RegistryEntry).
Implicit Types (dev root k : string) (entities : list er.RegistryEntry).

Lemma enabled_on_true dev e :
  enabled_on dev e = true
  ↔ er.device_id e = Some dev ∧ er.disabled_by e = None.
Proof.
  unfold enabled_on. rewrite andb_true_iff, bool_decide_eq_true.
  destruct (er.disabled_by e); simpl; intuition congruence.
Qed.

Lemma add_enabled_cons dev e entities acc :
  add_enabled dev (e :: entities) acc
  = add_enabled dev entities
      (if enabled_on dev e then dict_set (er.entity_id e) e acc else acc).
Proof. done. Qed.

(** Every binding the loop leaves behind was there before or comes from
    an enabled entity of [dev]. *)
Lemma add_enabled_sound (Q : er.RegistryEntry → Prop) dev entities acc :
  (∀ e, e ∈ entities → enabled_on dev e = true → Q e) →
  (∀ k e, dict_get k acc = Some e → er.entity_id e = k ∧ Q e) →
  ∀ k e, dict_get k (add_enabled dev entities acc) = Some e →
         er.entity_id e = k ∧ Q e.
Proof.
  revert acc. induction entities as [|e0 entities IH]; intros acc HQ Hacc.
  - done.
  - rewrite add_enabled_cons. apply IH.
    + intros e He. apply HQ. by apply list_elem_of_further.
    + destruct (enabled_on dev e0) eqn:Hen; [|done].
      intros k e. rewrite dict_get_set.
      destruct (String.eqb_spec (er.entity_id e0) k) as [<-|]; [|by auto].
      intros [= <-]. split; [done|]. apply HQ; [apply list_elem_of_here|done].
Qed.

(** Keys are never removed, and every enabled entity of [dev] gets one. *)
Lemma add_enabled_keeps dev entities acc k :
  k ∈ dict_keys acc → k ∈ dict_keys (add_enabled dev entities acc).
Proof.
  revert acc. induction entities as [|e0 entities IH]; intros acc Hk; [done|].
  rewrite add_enabled_cons. apply IH.
  destruct (enabled_on dev e0); [|done].
  apply dict_get_is_Some. rewrite dict_get_set.
  destruct (String.eqb_spec (er.entity_id e0) k); [by eauto|].
  by apply dict_get_is_Some.
Qed.

Lemma add_enabled_adds dev entities acc e :
  e ∈ entities → enabled_on dev e = true →
  er.entity_id e ∈ dict_keys (add_enabled dev entities acc).
Proof.
  revert acc. induction entities as [|e0 entities IH]; intros acc Hin Hen.
  - by apply elem_of_nil in Hin.
  - rewrite add_enabled_cons.
    apply elem_of_cons in Hin as [<-|Hin]; [|by apply IH].
    rewrite Hen. apply add_enabled_keeps, dict_get_is_Some.
    rewrite dict_get_set, String.eqb_refl. by eauto.
Qed.

Lemma add_enabled_NoDup dev entities acc :
  NoDup (dict_keys acc) → NoDup (dict_keys (add_enabled dev entities acc)).
Proof.
  revert acc. induction entities as [|e0 entities IH]; intros acc Hnd; [done|].
  rewrite add_enabled_cons. apply IH.
  destruct (enabled_on dev e0); [by apply dict_set_NoDup | done].
Qed.

(** With pairwise distinct, fresh entity ids the loop appends the enabled
    entities of [dev] in registry order. *)
Lemma add_enabled_fresh dev entities acc :
  NoDup (dict_keys acc ++ map er.entity_id entities) →
  add_enabled dev entities acc
  = acc ++ map (λ e, (er.entity_id e, e)) (List.filter (enabled_on dev) entities).
Proof.
  revert acc. induction entities as [|e0 entities IH]; intros acc Hnd.
  - simpl. by rewrite app_nil_r.
  - rewrite add_enabled_cons. simpl in Hnd |- *.
    apply NoDup_app in Hnd as (Hacc & Hdisj & Hes).
    apply NoDup_cons in Hes as [Hnin Hes].
    destruct (enabled_on dev e0).
    + rewrite dict_set_fresh.
      2:{ intros Hin. by apply (Hdisj _ Hin), list_elem_of_here. }
      rewrite IH.
      * by rewrite <- app_assoc.
      * unfold dict_keys. rewrite map_app. simpl. rewrite <- app_assoc. simpl.
        apply NoDup_app. split_and!; [done| |by apply NoDup_cons].
        intros x Hx. by apply Hdisj.
    + apply IH. apply NoDup_app. split_and!; [done| |done].
      intros x Hx Hx'. by apply (Hdisj _ Hx), list_elem_of_further.
Qed.

Lemma enabled_count_pos dev entities e :
  e ∈ entities → enabled_on dev e = true → 0 < enabled_count dev entities.
Proof.
  unfold enabled_count. induction entities as [|e0 entities IH]; intros Hin Hen.
  - by apply elem_of_nil in Hin.
  - simpl. apply elem_of_cons in Hin as [<-|Hin].
    + rewrite Hen. simpl. lia.
    + destruct (enabled_on dev e0); simpl; [lia | by apply IH].
Qed.

Lemma add_child_no_parent root entities acc device :
  dr.via_device_id device ≠ Some root →
  add_child root entities acc device = acc.
Proof. intros Hne. unfold add_child. by rewrite bool_decide_eq_false_2. Qed.

Lemma add_child_keeps root entities acc device k :
  k ∈ dict_keys acc → k ∈ dict_keys (add_child root entities acc device).
Proof.
  intros Hk. unfold add_child.
  repeat case_match; auto using add_enabled_keeps.
Qed.

Lemma add_child_adds root entities acc device e :
  dr.via_device_id device = Some root →
  e ∈ entities → enabled_on (dr.id device) e = true →
  er.entity_id e ∈ dict_keys (add_child root entities acc device).
Proof.
  intros Hvia Hin Hen. unfold add_child.
  rewrite bool_decide_eq_true_2 by done.
  pose proof (enabled_count_pos _ _ _ Hin Hen) as Hpos.
  apply Nat.ltb_lt in Hpos. rewrite Hpos. by apply add_enabled_adds.
Qed.

Lemma add_child_NoDup root entities acc device :
  NoDup (dict_keys acc) →
  NoDup (dict_keys (add_child root entities acc device)).
Proof.
  intros Hnd. unfold add_child.
  repeat case_match; auto using add_enabled_NoDup.
Qed.

Section children.

Context (root : string) (entities : list er.RegistryEntry).

Lemma children_sound (all devices : list dr.DeviceEntry) acc :
  (∀ d, d ∈ devices → d ∈ all) →
  (∀ k e, dict_get k acc = Some e →
          er.entity_id e = k ∧ collected_from root entities all e) →
  ∀ k e, dict_get k (fold_left (add_child root entities) devices acc) = Some e →
         er.entity_id e = k ∧ collected_from root entities all e.
Proof.
  revert acc. induction devices as [|d devices IH]; intros acc Hall Hacc; [done|].
  simpl. apply IH.
  - intros d' Hd'. by apply Hall, list_elem_of_further.
  - unfold add_child. case_bool_decide as Hvia; [|done].
    destruct (0 <? _)%nat; [|done].
    apply add_enabled_sound; [|done].
    intros e He [Hdev Hdis]%enabled_on_true. split_and!; [done..|].
    right. exists d. split_and!; [|done..]. apply Hall, list_elem_of_here.
Qed.

Lemma children_keep devices acc k :
  k ∈ dict_keys acc →
  k ∈ dict_keys (fold_left (add_child root entities) devices acc).
Proof.
  revert acc. induction devices as [|d devices IH]; intros acc Hk; [done|].
  simpl. by apply IH, add_child_keeps.
Qed.

Lemma children_add devices acc d e :
  d ∈ devices → dr.via_device_id d = Some root →
  e ∈ entities → enabled_on (dr.id d) e = true →
  er.entity_id e ∈ dict_keys (fold_left (add_child root entities) devices acc).
Proof.
  revert acc. induction devices as [|d0 devices IH]; intros acc Hd Hvia He Hen.
  - by apply elem_of_nil in Hd.
  - simpl. apply elem_of_cons in Hd as [<-|Hd]; [|by apply IH].
    by apply children_keep, add_child_adds.
Qed.

Lemma children_NoDup devices acc :
  NoDup (dict_keys acc) →
  NoDup (dict_keys (fold_left (add_child root entities) devices acc)).
Proof.
  revert acc. induction devices as [|d devices IH]; intros acc Hnd; [done|].
  simpl. by apply IH, add_child_NoDup.
Qed.

Lemma children_none devices acc :
  (∀ d, d ∈ devices → dr.via_device_id d ≠ Some root) →
  fold_left (add_child root entities) devices acc = acc.
Proof.
  revert acc. induction devices as [|d devices IH]; intros acc Hno; [done|].
  simpl. rewrite add_child_no_parent by apply Hno, list_elem_of_here.
  apply IH. intros d' Hd'. by apply Hno, list_elem_of_further.
Qed.

End children.

(** Distinct entities of the registry have distinct ids. *)
Lemma entity_id_inj entities e1 e2 :
  NoDup (map er.entity_id entities) →
  e1 ∈ entities → e2 ∈ entities →
  er.entity_id e1 = er.entity_id e2 → e1 = e2.
Proof.
  induction entities as [|e0 entities IH]; intros Hnd H1 H2 Heq.
  - by apply elem_of_nil in H1.
  - simpl in Hnd. apply NoDup_cons in Hnd as [Hnin Hnd].
    apply elem_of_cons in H1 as [->|H1]; apply elem_of_cons in H2 as [->|H2].
    + done.
    + exfalso. apply Hnin. rewrite Heq. by apply (list_elem_of_fmap_2 er.entity_id).
    + exfalso. apply Hnin. rewrite <- Heq. by apply (list_elem_of_fmap_2 er.entity_id).
    + by apply IH.
Qed.

End collect_facts.

(* ===================================================================== *)
(** * Running the methods *)
(* ===================================================================== *)

Section method_facts.

Import Py Huawei.

Implicit Types (self : HuaweiInverter) (st : gmap string core.State).

Lemma ends_with_true s suffix : endswith s suffix = true ↔ ends_with s suffix.
Proof. apply endswith_spec. Qed.

Lemma ends_with_false s suffix : endswith s suffix = false ↔ ¬ ends_with s suffix.
Proof. apply endswith_false. Qed.

(** The scan stops at the first key that ends with the name. *)
Lemma search_first st (l1 l2 : list string) (k name : string) :
  (∀ k', k' ∈ l1 → ¬ ends_with k' name) → ends_with k name →
  search st (l1 ++ k :: l2) name = st !! k.
Proof.
  intros Hl1 Hk. induction l1 as [|k0 l1 IH]; simpl.
  - apply ends_with_true in Hk. by rewrite Hk.
  - assert (endswith k0 name = false) as ->.
    { apply ends_with_false, Hl1, list_elem_of_here. }
    apply IH. intros k' Hk'. by apply Hl1, list_elem_of_further.
Qed.

Lemma search_none st (keys : list string) (name : string) :
  (∀ k, k ∈ keys → ¬ ends_with k name) → search st keys name = None.
Proof.
  induction keys as [|k0 keys IH]; intros Hno; simpl; [done|].
  assert (endswith k0 name = false) as ->.
  { apply ends_with_false, Hno, list_elem_of_here. }
  apply IH. intros k Hk. by apply Hno, list_elem_of_further.
Qed.

(** A list with a matching key splits at its first matching key. *)
Lemma first_match (keys : list string) (name : string) :
  (∃ k, k ∈ keys ∧ ends_with k name) →
  ∃ l1 k l2, keys = l1 ++ k :: l2 ∧ ends_with k name
             ∧ ∀ k', k' ∈ l1 → ¬ ends_with k' name.
Proof.
  induction keys as [|k0 keys IH]; intros (k & Hin & Hk).
  - by apply elem_of_nil in Hin.
  - destruct (endswith k0 name) eqn:Hk0.
    + exists [], k0, keys. split_and!; [done| by apply ends_with_true |].
      by intros k' ?%elem_of_nil.
    + apply ends_with_false in Hk0.
      apply elem_of_cons in Hin as [->|Hin]; [done|].
      destruct IH as (l1 & k1 & l2 & -> & Hk1 & Hl1); [by eauto|].
      exists (k0 :: l1), k1, l2. split_and!; [done..|].
      by intros k' [->|?]%elem_of_cons; [|apply Hl1].
Qed.

Lemma derating_lookup_run self :
  find_entity_state "inverter_power_derating" self
  = Returns (core.states (hass self) !! "number.inverter_power_derating") self.
Proof. done. Qed.

Lemma find_entity_state_search self name :
  name ≠ "inverter_power_derating" →
  find_entity_state name self
  = Returns (search (core.states (hass self))
               (dict_keys (all_entities self)) name) self.
Proof.
  intros Hne. unfold find_entity_state, mbind, method_bind, get_self.
  by destruct (String.eqb_spec name "inverter_power_derating").
Qed.

Lemma find_entity_state_total self name :
  find_entity_state name self = Returns (resolved self name) self.
Proof.
  unfold resolved, find_entity_state, mbind, method_bind, get_self.
  by destruct (String.eqb name "inverter_power_derating").
Qed.

Lemma resolved_with_voltage v self name :
  resolved (with_voltage v self) name = resolved self name.
Proof.
  unfold resolved, find_entity_state, mbind, method_bind, get_self.
  by destruct (String.eqb name "inverter_power_derating").
Qed.

Lemma has_data_true (s : core.State) :
  has_data s = true ↔ core.state s ∉ sentinels.
Proof.
  unfold has_data, str_in, sentinels. rewrite negb_true_iff.
  rewrite <- not_true_iff_false, existsb_exists. split.
  - intros Hno Hin. apply Hno. exists (core.state s).
    split; [by apply list_elem_of_In | apply String.eqb_refl].
  - intros Hnin (x & Hx & Heq). apply String.eqb_eq in Heq as <-.
    by apply Hnin, list_elem_of_In.
Qed.

Lemma has_data_false (s : core.State) :
  has_data s = false ↔ core.state s ∈ sentinels.
Proof.
  rewrite <- not_true_iff_false, has_data_true.
  split; [apply dec_stable | by intros ? ?].
Qed.

(** [float] of a string raises nothing but [ValueError]. *)
Lemma float_of_str_error (text : string) (e : exn) :
  float_of_str text = Err e → e = ValueError.
Proof.
  unfold float_of_str. repeat case_match; congruence.
Qed.

(** What [get_state_float] does once the name is resolved. *)
Lemma get_state_float_resolved self name default r :
  find_entity_state name self = Returns r self →
  get_state_float name default self
  = Returns
      match r with
      | Some s =>
          if has_data s then
            match float_of_str (core.state s) with
            | Ok f => f
            | Err _ => default
            end
          else default
      | None => default
      end self.
Proof.
  intros Hr. unfold get_state_float, mbind, method_bind. rewrite Hr.
  destruct r as [s|]; [|done]. destruct (has_data s); [|done].
  unfold try_except_ValueError, builtin.
  destruct (float_of_str (core.state s)) as [f|e] eqn:Hf; [done|].
  by rewrite (float_of_str_error _ _ Hf).
Qed.

Lemma get_state_float_total self name default :
  get_state_float name default self
  = Returns (float_read self name default) self.
Proof.
  unfold float_read.
  by rewrite (get_state_float_resolved _ _ _ _ (find_entity_state_total _ _)).
Qed.

Lemma float_read_with_voltage v self name default :
  float_read (with_voltage v self) name default
  = float_read self name default.
Proof.
  unfold float_read.
  rewrite !(get_state_float_resolved _ _ _ _ (find_entity_state_total _ _)).
  by rewrite resolved_with_voltage.
Qed.

(** What [get_state_int] does once the name is resolved. *)
Lemma get_state_int_resolved self name default r :
  find_entity_state name self = Returns r self →
  get_state_int name default self
  = match r with
    | Some s =>
        if has_data s then
          match float_of_str (core.state s) with
          | Ok f =>
              match int_of_float f with
              | Ok n => Returns n self
              | Err ValueError => Returns default self
              | Err e => Raises e self
              end
          | Err _ => Returns default self
          end
        else Returns default self
    | None => Returns default self
    end.
Proof.
  intros Hr. unfold get_state_int, mbind, method_bind. rewrite Hr.
  destruct r as [s|]; [|done]. destruct (has_data s); [|done].
  unfold try_except_ValueError, builtin.
  destruct (float_of_str (core.state s)) as [f|e] eqn:Hf.
  - by destruct (int_of_float f) as [n|[]].
  - by rewrite (float_of_str_error _ _ Hf).
Qed.

(** [get_state_text] never raises. *)
Lemma get_state_text_total self name default :
  ∃ text, get_state_text name default self = Returns text self.
Proof.
  unfold get_state_text, mbind, method_bind.
  rewrite find_entity_state_total.
  destruct (resolved self name) as [s|]; [|by eexists].
  destruct (has_data s); by eexists.
Qed.


(** [get_energy_data] always returns; it leaves [self] with the voltages
    it read stored in [voltage]. *)
Lemma get_energy_data_run self :
  let read name := float_read self name 0 in
  let volts := [ read "power_meter_phase_a_voltage";
                 read "power_meter_phase_b_voltage";
                 read "power_meter_phase_c_voltage" ] in
  get_energy_data self
  = Returns
      {| qilowatt.Power :=
           [ read "power_meter_phase_a_active_power" * -1;
             read "power_meter_phase_b_active_power" * -1;
             read "power_meter_phase_c_active_power" * -1 ]%float;
         qilowatt.Today := 0;
         qilowatt.Total := (read "power_meter_consumption" * -1)%float;
         qilowatt.Current :=
           [ read "power_meter_phase_a_current";
             read "power_meter_phase_b_current";
             read "power_meter_phase_c_current" ];
         qilowatt.Voltage := volts;
         qilowatt.Frequency := read "power_meter_frequency" |}
      (with_voltage (Some volts) self).
Proof.
  intros read volts. unfold get_energy_data, mbind, method_bind.
  rewrite !get_state_float_total. unfold set_voltage.
  change {| hass := hass self; device_id := device_id self;
            all_entities := all_entities self;
            voltage := Some ?v |} with (with_voltage (Some v) self).
  rewrite !get_state_float_total, !float_read_with_voltage.
  reflexivity.
Qed.

(** [get_metrics_data] returns when the battery charge is read, and
    raises what that read raises. *)
Lemma get_metrics_data_run self (soc : Z) :
  let read name := float_read self name 0 in
  get_state_int "state_of_capacity" 0 self = Returns soc self →
  get_metrics_data self
  = Returns
      {| qilowatt.PvPower :=
           [ read "pv_1_voltage" * read "pv_1_current";
             read "pv_2_voltage" * read "pv_2_current" ]%float;
         qilowatt.PvVoltage := [read "pv_1_voltage"; read "pv_2_voltage"];
         qilowatt.PvCurrent := [read "pv_1_current"; read "pv_2_current"];
         qilowatt.LoadPower :=
           [ read "active_power" - read "power_meter_active_power" ]%float;
         qilowatt.AlarmCodes := [0; 0; 0; 0; 0; 0]%Z;
         qilowatt.BatterySOC := soc;
         qilowatt.LoadCurrent := [0; 0; 0]%float;
         qilowatt.BatteryPower := [read "charge_discharge_power"];
         qilowatt.BatteryCurrent := [read "bus_current"];
         qilowatt.BatteryVoltage := [read "bus_voltage"];
         qilowatt.InverterStatus := 2;
         qilowatt.GridExportLimit := read "inverter_power_derating";
         qilowatt.BatteryTemperature := [read "battery_1_bms_temperature"];
         qilowatt.InverterTemperature := read "internal_temperature" |}
      self.
Proof.
  intros read Hsoc. unfold get_metrics_data, mbind, method_bind.
  rewrite !get_state_float_total, Hsoc, !get_state_float_total.
  reflexivity.
Qed.

Lemma get_metrics_data_raises self (e : exn) :
  get_state_int "state_of_capacity" 0 self = Raises e self →
  get_metrics_data self = Raises e self.
Proof.
  intros Hsoc. unfold get_metrics_data, mbind, method_bind.
  by rewrite !get_state_float_total, Hsoc.
Qed.

(** A float read returns the value the call returns. *)
Lemma float_read_returns self name default (x : float) :
  get_state_float name default self = Returns x self →
  float_read self name default = x.
Proof. intros Hx. unfold float_read. by rewrite Hx. Qed.

End method_facts.

(* ===================================================================== *)
(** * Theorems *)
(* ===================================================================== *)

Section theorems.

Import Py Huawei qilowatt.

(** ** Construction *)

(** C1. Under the registry's invariant that entity ids are pairwise
    distinct, the Collected Entity Set binds exactly the enabled entities
    of the root device and of the devices whose parent is the root device,
    each under its own id and once; with no child device it has as many
    entries as the root device has enabled entities; and a child without
    enabled entities owns none of its entries, whatever disabled entities
    it has. *)
Theorem collect_device_entities_spec (h : core.HomeAssistant) (root : string) :
  NoDup (map er.entity_id (core.entity_registry h)) →
  (∀ k e, dict_get k (collect_device_entities h root) = Some e ↔
          er.entity_id e = k ∧
          collected_from root (core.entity_registry h)
            (core.device_registry h) e)
  ∧ NoDup (dict_keys (collect_device_entities h root))
  ∧ ((∀ d, d ∈ core.device_registry h → dr.via_device_id d ≠ Some root) →
     length (collect_device_entities h root)
     = length (List.filter (enabled_on root) (core.entity_registry h)))
  ∧ (∀ d, d ∈ core.device_registry h →
          dr.via_device_id d = Some root →
          enabled_count (dr.id d) (core.entity_registry h) = 0 →
          ∀ k e, dict_get k (collect_device_entities h root) = Some e →
                 er.device_id e ≠ Some (dr.id d)).
Proof.
  intros Hids. unfold collect_device_entities.
  set (entities := core.entity_registry h).
  set (devices := core.device_registry h).
  assert (Hsound : ∀ k e,
    dict_get k (fold_left (add_child root entities) devices
                  (add_enabled root entities [])) = Some e →
    er.entity_id e = k ∧ collected_from root entities devices e).
  { apply (children_sound root entities devices); [done|].
    apply add_enabled_sound; [|done].
    intros e He [Hdev Hdis]%enabled_on_true. split_and!; auto. }
  split_and!.
  - intros k e. split; [apply Hsound|].
    intros [<- (He & Hdis & Hown)].
    assert (Hkey : er.entity_id e ∈
      dict_keys (fold_left (add_child root entities) devices
                   (add_enabled root entities []))).
    { destruct Hown as [Hroot | (d & Hd & Hvia & Hdev)].
      - apply children_keep, add_enabled_adds; [done|].
        by apply enabled_on_true.
      - apply (children_add root entities devices _ d); [done..|].
        by apply enabled_on_true. }
    apply dict_get_is_Some in Hkey as [e' Hget]. rewrite Hget. f_equal.
    destruct (Hsound _ _ Hget) as [Hid (He' & _)].
    by apply (entity_id_inj entities).
  - apply children_NoDup, add_enabled_NoDup. constructor.
  - intros Hnone. rewrite children_none by done.
    rewrite add_enabled_fresh by done. simpl. by rewrite length_map.
  - intros d Hd Hvia Hcount k e Hget Hdev.
    destruct (Hsound _ _ Hget) as [_ (He & Hdis & _)].
    assert (0 < enabled_count (dr.id d) entities); [|lia].
    apply (enabled_count_pos _ _ e); [done|]. by apply enabled_on_true.
Qed.

Lemma collect_device_entities_spec_witness :
  NoDup (map er.entity_id Sample.entities)
  ∧ dict_get "sensor.battery_bus_voltage"
      (collect_device_entities (Sample.home "87") "inv")
    = Some (Sample.entity "sensor.battery_bus_voltage" "battery" None).
Proof.
  assert (Hids : NoDup (map er.entity_id Sample.entities)).
  { apply (bool_decide_unpack _). vm_compute. exact I. }
  split; [exact Hids|].
  apply (collect_device_entities_spec (Sample.home "87") "inv" Hids).
  split; [reflexivity|]. split_and!; [|reflexivity|].
  - cbn. do 16 apply list_elem_of_further. apply list_elem_of_here.
  - right. exists {| dr.id := "battery"; dr.via_device_id := Some "inv" |}.
    split_and!; [|reflexivity..].
    cbn. do 2 apply list_elem_of_further. apply list_elem_of_here.
Defined.

(** ** Entity resolution *)

(** C2. For a logical name other than the derating name: when some key of
    the Collected Entity Set ends with the name, resolution returns the
    state of the first such key in iteration order; when none does, it
    returns no value. *)
Theorem find_entity_state_suffix (self : HuaweiInverter) (name : string) :
  name ≠ "inverter_power_derating" →
  ((∃ k, k ∈ dict_keys (all_entities self) ∧ ends_with k name) →
   ∃ l1 k l2,
     dict_keys (all_entities self) = l1 ++ k :: l2
     ∧ ends_with k name
     ∧ (∀ k', k' ∈ l1 → ¬ ends_with k' name)
     ∧ find_entity_state name self
       = Returns (core.states (hass self) !! k) self)
  ∧ ((∀ k, k ∈ dict_keys (all_entities self) → ¬ ends_with k name) →
     find_entity_state name self = Returns None self).
Proof.
  intros Hne. rewrite find_entity_state_search by done. split.
  - intros (l1 & k & l2 & Hkeys & Hk & Hl1)%first_match.
    exists l1, k, l2. split_and!; [done..|].
    rewrite Hkeys. f_equal. by apply search_first.
  - intros Hnone. f_equal. by apply search_none.
Qed.

Lemma find_entity_state_suffix_witness :
  "power_meter_phase_a_active_power" ≠ "inverter_power_derating"
  ∧ ∃ l1 k l2,
      dict_keys (all_entities Sample.inverter) = l1 ++ k :: l2
      ∧ ends_with k "power_meter_phase_a_active_power"
      ∧ (∀ k', k' ∈ l1 → ¬ ends_with k' "power_meter_phase_a_active_power")
      ∧ find_entity_state "power_meter_phase_a_active_power" Sample.inverter
        = Returns (core.states (hass Sample.inverter) !! k) Sample.inverter.
Proof.
  split; [discriminate|].
  apply (find_entity_state_suffix Sample.inverter
           "power_meter_phase_a_active_power"); [discriminate|].
  exists "sensor.meter_power_meter_phase_a_active_power". split.
  - vm_compute. repeat constructor.
  - by exists "sensor.meter_".
Defined.

(** The identifier [sensor.meter_power_meter_phase_a_active_power]
    resolves the logical name [power_meter_phase_a_active_power]. *)
Example find_entity_state_phase_a :
  find_entity_state "power_meter_phase_a_active_power" Sample.inverter
  = Returns (Some (Sample.text "100")) Sample.inverter.
Proof. reflexivity. Qed.

(** C5. The derating name is looked up under the fixed identifier
    [number.inverter_power_derating], whatever the Collected Entity Set
    holds. *)
Theorem find_entity_state_derating (h : core.HomeAssistant)
    (dev : string) (collected : dict er.RegistryEntry)
    (v : option (list float)) :
  find_entity_state "inverter_power_derating"
    {| hass := h; device_id := dev; all_entities := collected; voltage := v |}
  = Returns (core.states h !! "number.inverter_power_derating")
      {| hass := h; device_id := dev; all_entities := collected;
         voltage := v |}.
Proof. apply derating_lookup_run. Qed.

(** A key of the Collected Entity Set that ends with the derating name is
    passed over, and an empty set changes nothing. *)
Example derating_passes_over_decoy :
  endswith "sensor.meter_inverter_power_derating" "inverter_power_derating"
  = true
  ∧ find_entity_state "inverter_power_derating" Sample.decoy
    = Returns (Some (Sample.text "8000")) Sample.decoy
  ∧ find_entity_state "inverter_power_derating"
      (init (Sample.home "87") "no such device")
    = Returns (Some (Sample.text "8000"))
        (init (Sample.home "87") "no such device")
  ∧ all_entities (init (Sample.home "87") "no such device") = [].
Proof. by vm_compute. Qed.

(** C10. For a logical name other than the derating name, the first key
    that ends with the name decides alone: when it has no state,
    resolution returns no value, whatever follows it. *)
Theorem find_entity_state_first_match_only (self : HuaweiInverter)
    (name k : string) (l1 l2 : list string) :
  name ≠ "inverter_power_derating" →
  dict_keys (all_entities self) = l1 ++ k :: l2 →
  (∀ k', k' ∈ l1 → ¬ ends_with k' name) →
  ends_with k name →
  core.states (hass self) !! k = None →
  find_entity_state name self = Returns None self.
Proof.
  intros Hne Hkeys Hl1 Hk Hstate.
  rewrite find_entity_state_search, Hkeys by done.
  by rewrite search_first, Hstate.
Qed.

Lemma find_entity_state_first_match_only_witness :
  ends_with "sensor.meter_power_meter_frequency" "power_meter_frequency"
  ∧ "sensor.meter_power_meter_frequency"
    ∈ dict_keys (all_entities Sample.inverter)
  ∧ core.states (hass Sample.inverter) !! "sensor.meter_power_meter_frequency"
    = Some (Sample.text "50")
  ∧ find_entity_state "power_meter_frequency" Sample.inverter
    = Returns None Sample.inverter.
Proof.
  split_and!.
  - by exists "sensor.meter_".
  - vm_compute. repeat constructor.
  - reflexivity.
  - apply (find_entity_state_first_match_only Sample.inverter
             "power_meter_frequency" "sensor.inverter_power_meter_frequency"
             [ "sensor.inverter_active_power";
               "sensor.inverter_pv_1_voltage";
               "sensor.inverter_pv_1_current";
               "sensor.inverter_pv_2_voltage";
               "sensor.inverter_pv_2_current";
               "sensor.inverter_internal_temperature" ]
             [ "sensor.meter_power_meter_active_power";
               "sensor.meter_power_meter_phase_a_active_power";
               "sensor.meter_power_meter_phase_b_active_power";
               "sensor.meter_power_meter_phase_c_active_power";
               "sensor.meter_power_meter_consumption";
               "sensor.meter_power_meter_frequency";
               "sensor.battery_state_of_capacity";
               "sensor.battery_bus_voltage" ]).
    + discriminate.
    + reflexivity.
    + intros k' Hk'. apply ends_with_false.
      repeat (apply elem_of_cons in Hk' as [->|Hk']); try reflexivity.
      by apply elem_of_nil in Hk'.
    + by exists "sensor.inverter_".
    + reflexivity.
Defined.

(** ** Typed extraction *)

(** C8. [get_state_float] returns the default when the name resolves to
    nothing, when the state text is one of [unknown], [unavailable] and
    the empty text, and when the text does not parse as a float, as
    [N/A] does not; otherwise it returns the parsed float. *)
Theorem get_state_float_spec (self : HuaweiInverter) (name : string)
    (default : float) (r : option core.State) :
  find_entity_state name self = Returns r self →
  (r = None → get_state_float name default self = Returns default self)
  ∧ (∀ s, r = Some s → core.state s ∈ sentinels →
          get_state_float name default self = Returns default self)
  ∧ (∀ s e, r = Some s → float_of_str (core.state s) = Err e →
            get_state_float name default self = Returns default self)
  ∧ (∀ s f, r = Some s → core.state s ∉ sentinels →
            float_of_str (core.state s) = Ok f →
            get_state_float name default self = Returns f self)
  ∧ float_of_str "N/A" = Err ValueError.
Proof.
  intros Hr. rewrite (get_state_float_resolved _ _ _ _ Hr). split_and!.
  - by intros ->.
  - intros s -> Hs%has_data_false. by rewrite Hs.
  - intros s e -> He. rewrite He. by destruct (has_data s).
  - intros s f -> Hs%has_data_true Hf. by rewrite Hs, Hf.
  - reflexivity.
Qed.

Lemma get_state_float_spec_witness :
  find_entity_state "internal_temperature" Sample.inverter
  = Returns (Some (Sample.text "N/A")) Sample.inverter
  ∧ get_state_float "internal_temperature" 25 Sample.inverter
    = Returns 25%float Sample.inverter.
Proof.
  assert (Hr : find_entity_state "internal_temperature" Sample.inverter
               = Returns (Some (Sample.text "N/A")) Sample.inverter)
    by reflexivity.
  split; [exact Hr|].
  destruct (get_state_float_spec Sample.inverter "internal_temperature" 25
              _ Hr) as (_ & _ & Herr & _ & Hna).
  by apply (Herr (Sample.text "N/A") ValueError).
Defined.



(** Truncation is toward zero, not to the nearest or the lower integer. *)
Example int_of_float_examples :
  int_of_float 12.5 = Ok 12%Z
  ∧ int_of_float (-12.5) = Ok (-12)%Z
  ∧ int_of_float 13.5 = Ok 13%Z
  ∧ int_of_float 0.75 = Ok 0%Z
  ∧ int_of_float (-0.75) = Ok 0%Z
  ∧ int_of_float infinity = Err OverflowError
  ∧ int_of_float nan = Err ValueError.
Proof. by vm_compute. Qed.

(** C4. The failing case of the claim that typed extraction never
    raises: the text [inf] parses to an infinity, whose conversion to an
    integer raises [OverflowError]; [get_state_int] catches [ValueError]
    only, so the exception leaves it, and leaves [get_metrics_data]. *)
Theorem get_state_int_overflow :
  float_of_str "inf" = Ok infinity
  ∧ find_entity_state "state_of_capacity" Sample.inverter_inf
    = Returns (Some (Sample.text "inf")) Sample.inverter_inf
  ∧ get_state_int "state_of_capacity" 0 Sample.inverter_inf
    = Raises OverflowError Sample.inverter_inf
  ∧ get_metrics_data Sample.inverter_inf
    = Raises OverflowError Sample.inverter_inf.
Proof.
  assert (Hint : get_state_int "state_of_capacity" 0 Sample.inverter_inf
                 = Raises OverflowError Sample.inverter_inf)
    by reflexivity.
  split_and!; [reflexivity | reflexivity | exact Hint |].
  by apply get_metrics_data_raises.
Qed.

(** The same on any adapter: a state text that parses to an infinity
    makes [get_state_int] raise. *)
Lemma get_state_int_infinite (self : HuaweiInverter) (name : string)
    (default : Z) (s : core.State) (f : float) (sign : bool) :
  find_entity_state name self = Returns (Some s) self →
  core.state s ∉ sentinels →
  float_of_str (core.state s) = Ok f →
  Prim2SF f = S754_infinity sign →
  get_state_int name default self = Raises OverflowError self.
Proof.
  intros Hr Hs%has_data_true Hf Hinf.
  rewrite (get_state_int_resolved _ _ _ _ Hr), Hs, Hf.
  unfold int_of_float. by rewrite Hinf.
Qed.

(** The two other extractions never raise, and [get_state_int] raises
    nothing but [OverflowError]. *)
Lemma typed_extraction_raises (self : HuaweiInverter) (name : string) :
  (∀ default, ∃ x, get_state_float name default self = Returns x self)
  ∧ (∀ default, ∃ x, get_state_text name default self = Returns x self)
  ∧ (∀ default e self',
       get_state_int name default self = Raises e self' →
       e = OverflowError ∧ self' = self).
Proof.
  split_and!.
  - intros default. eexists. apply get_state_float_total.
  - intros default. apply get_state_text_total.
  - intros default e self'.
    rewrite (get_state_int_resolved _ _ _ _ (find_entity_state_total _ _)).
    destruct (resolved self name) as [s|]; [|done].
    destruct (has_data s); [|done].
    destruct (float_of_str (core.state s)) as [f|]; [|done].
    unfold int_of_float. destruct (Prim2SF f); try done.
    by intros [= <- <-].
Qed.

(** ** Record composition *)

(** C6. Whatever the states are, [get_energy_data] returns a record whose
    [Power] holds the three phase readings, each multiplied by -1, whose
    [Today] is 0 and whose [Total] is the consumption reading multiplied
    by -1. *)
Theorem get_energy_data_power_today_total (self : HuaweiInverter)
    (power_a power_b power_c consumption : float) :
  get_state_float "power_meter_phase_a_active_power" 0 self
  = Returns power_a self →
  get_state_float "power_meter_phase_b_active_power" 0 self
  = Returns power_b self →
  get_state_float "power_meter_phase_c_active_power" 0 self
  = Returns power_c self →
  get_state_float "power_meter_consumption" 0 self
  = Returns consumption self →
  ∃ energy self',
    get_energy_data self = Returns energy self'
    ∧ Power energy = [power_a * -1; power_b * -1; power_c * -1]%float
    ∧ Today energy = 0%Z
    ∧ Total energy = (consumption * -1)%float.
Proof.
  intros Ha%float_read_returns Hb%float_read_returns
         Hc%float_read_returns Ht%float_read_returns.
  do 2 eexists. split; [apply get_energy_data_run|].
  simpl. by rewrite Ha, Hb, Hc, Ht.
Qed.

Lemma get_energy_data_power_today_total_witness :
  ∃ energy self',
    get_energy_data Sample.inverter = Returns energy self'
    ∧ Power energy = [-100; -200; -300]%float
    ∧ Today energy = 0%Z
    ∧ Total energy = (-1500.5)%float.
Proof.
  destruct (get_energy_data_power_today_total Sample.inverter
              100 200 300 1500.5)
    as (energy & self' & Hrun & Hpower & Htoday & Htotal);
    [reflexivity..|].
  exists energy, self'. split_and!; [done | | done |].
  - rewrite Hpower. reflexivity.
  - rewrite Htotal. reflexivity.
Defined.

(** X16. Whenever the battery charge is read, [get_metrics_data] returns
    a record whose [PvPower] holds the product of voltage and current of
    each of the two strings, and whose [LoadPower] holds the inverter's
    active power minus the meter's. *)
Theorem get_metrics_data_pv_load (self : HuaweiInverter)
    (pv_voltage_1 pv_current_1 pv_voltage_2 pv_current_2 : float)
    (active_power power_meter_active_power : float) (soc : Z) :
  get_state_float "pv_1_voltage" 0 self = Returns pv_voltage_1 self →
  get_state_float "pv_1_current" 0 self = Returns pv_current_1 self →
  get_state_float "pv_2_voltage" 0 self = Returns pv_voltage_2 self →
  get_state_float "pv_2_current" 0 self = Returns pv_current_2 self →
  get_state_float "active_power" 0 self = Returns active_power self →
  get_state_float "power_meter_active_power" 0 self
  = Returns power_meter_active_power self →
  get_state_int "state_of_capacity" 0 self = Returns soc self →
  ∃ metrics,
    get_metrics_data self = Returns metrics self
    ∧ PvPower metrics
      = [pv_voltage_1 * pv_current_1; pv_voltage_2 * pv_current_2]%float
    ∧ LoadPower metrics
      = [active_power - power_meter_active_power]%float.
Proof.
  intros Hv1%float_read_returns Hc1%float_read_returns
         Hv2%float_read_returns Hc2%float_read_returns
         Hap%float_read_returns Hpm%float_read_returns Hsoc.
  eexists. split; [by apply get_metrics_data_run|].
  simpl. by rewrite Hv1, Hc1, Hv2, Hc2, Hap, Hpm.
Qed.

Lemma get_metrics_data_pv_load_witness :
  ∃ metrics,
    get_metrics_data Sample.inverter = Returns metrics Sample.inverter
    ∧ PvPower metrics = [200; 0]%float
    ∧ LoadPower metrics = [6200]%float.
Proof.
  destruct (get_metrics_data_pv_load Sample.inverter 40 5 0 0 5000 (-1200) 87)
    as (metrics & Hrun & Hpv & Hload); [reflexivity..|].
  exists metrics. split_and!; [done | |].
  - rewrite Hpv. reflexivity.
  - rewrite Hload. reflexivity.
Defined.

(** C7. The failing case of the claim that every state assignment gives
    a record with these two fields: with the battery sensor at [inf] the
    six readings behind [PvPower] and [LoadPower] are all there, 40, 5,
    0, 0, 5000 and -1200, and yet [get_metrics_data] returns no record;
    the [OverflowError] of the battery charge read leaves it. *)
Theorem get_metrics_data_no_record :
  get_state_float "pv_1_voltage" 0 Sample.inverter_inf
  = Returns 40%float Sample.inverter_inf
  ∧ get_state_float "pv_1_current" 0 Sample.inverter_inf
    = Returns 5%float Sample.inverter_inf
  ∧ get_state_float "pv_2_voltage" 0 Sample.inverter_inf
    = Returns 0%float Sample.inverter_inf
  ∧ get_state_float "pv_2_current" 0 Sample.inverter_inf
    = Returns 0%float Sample.inverter_inf
  ∧ get_state_float "active_power" 0 Sample.inverter_inf
    = Returns 5000%float Sample.inverter_inf
  ∧ get_state_float "power_meter_active_power" 0 Sample.inverter_inf
    = Returns (-1200)%float Sample.inverter_inf
  ∧ get_metrics_data Sample.inverter_inf
    = Raises OverflowError Sample.inverter_inf
  ∧ ¬ ∃ metrics self',
        get_metrics_data Sample.inverter_inf = Returns metrics self'.
Proof.
  assert (Hraise : get_metrics_data Sample.inverter_inf
                   = Raises OverflowError Sample.inverter_inf).
  { apply get_metrics_data_raises. reflexivity. }
  split_and!; [reflexivity.. | exact Hraise |].
  intros (metrics & self' & Hrun). rewrite Hraise in Hrun. discriminate Hrun.
Qed.

(** ** Effects of record generation *)



(** X14. [get_energy_data] is idempotent on the adapter: a second call
    returns the same record and changes nothing more. *)
Lemma get_energy_data_twice (self : HuaweiInverter) :
  ∃ energy self',
    get_energy_data self = Returns energy self'
    ∧ get_energy_data self' = Returns energy self'.
Proof.
  do 2 eexists. split; [apply get_energy_data_run|].
  rewrite get_energy_data_run. by rewrite !float_read_with_voltage.
Qed.

(** [get_metrics_data] writes nothing: it ends on the instance it
    started on. *)
Lemma get_metrics_data_frame (self : HuaweiInverter)
    (o : outcome MetricsData) :
  get_metrics_data self = o →
  match o with
  | Returns _ self' => self' = self
  | Raises _ self' => self' = self
  end.
Proof.
  intros <-.
  pose proof (get_state_int_resolved self "state_of_capacity" 0 _
                (find_entity_state_total _ _)) as Hsoc.
  destruct (get_state_int "state_of_capacity" 0 self) as [soc s|e s] eqn:Hrun.
  - assert (s = self) as ->.
    { revert Hsoc. repeat case_match; congruence. }
    by rewrite (get_metrics_data_run _ _ Hrun).
  - assert (s = self) as ->.
    { revert Hsoc. repeat case_match; congruence. }
    by rewrite (get_metrics_data_raises _ _ Hrun).
Qed.

End theorems.

(* ===================================================================== *)
(** * Further properties of the adapter *)
(* ===================================================================== *)

Section collect_more.

Import Py Huawei.

Implicit Types (e : er.RegistryEntry) (acc : dict er.RegistryEntry).
Implicit Types (dev root : string) (entities : list er.RegistryEntry).

(** The entity loop adds nothing for a device without enabled entities. *)
Lemma add_enabled_none dev entities acc :
  (∀ e, e ∈ entities → enabled_on dev e = false) →
  add_enabled dev entities acc = acc.
Proof.
  revert acc. induction entities as [|e0 entities IH]; intros acc Hno; [done|].
  rewrite add_enabled_cons, (Hno e0) by apply list_elem_of_here.
  apply IH. intros e He. by apply Hno, list_elem_of_further.
Qed.

Lemma enabled_count_zero dev entities :
  enabled_count dev entities = 0 →
  ∀ e, e ∈ entities → enabled_on dev e = false.
Proof.
  intros Hzero e He. destruct (enabled_on dev e) eqn:Hen; [|done].
  pose proof (enabled_count_pos _ _ _ He Hen). lia.
Qed.

(** The keys a dict has stay where they are: assignment only appends. *)
Lemma dict_keys_set_prefix {V : Type} (k : string) (v : V) (d : dict V) :
  ∃ rest, dict_keys (dict_set k v d) = dict_keys d ++ rest.
Proof.
  destruct (decide (k ∈ dict_keys d)) as [Hin|Hnin].
  - exists []. by rewrite dict_set_present, app_nil_r.
  - exists [k]. rewrite dict_set_fresh by done.
    unfold dict_keys. by rewrite map_app.
Qed.

Lemma add_enabled_prefix dev entities acc :
  ∃ rest, dict_keys (add_enabled dev entities acc) = dict_keys acc ++ rest.
Proof.
  revert acc. induction entities as [|e0 entities IH]; intros acc.
  - exists []. by rewrite app_nil_r.
  - rewrite add_enabled_cons. destruct (enabled_on dev e0); [|apply IH].
    destruct (IH (dict_set (er.entity_id e0) e0 acc)) as [rest2 ->].
    destruct (dict_keys_set_prefix (er.entity_id e0) e0 acc) as [rest1 ->].
    exists (rest1 ++ rest2). by rewrite app_assoc.
Qed.

Lemma children_prefix root entities (devices : list dr.DeviceEntry) acc :
  ∃ rest,
    dict_keys (fold_left (add_child root entities) devices acc)
    = dict_keys acc ++ rest.
Proof.
  revert acc. induction devices as [|d devices IH]; intros acc.
  - exists []. by rewrite app_nil_r.
  - simpl. destruct (IH (add_child root entities acc d)) as [rest2 ->].
    assert (∃ rest1, dict_keys (add_child root entities acc d)
                     = dict_keys acc ++ rest1) as [rest1 ->].
    { unfold add_child. repeat case_match;
        try (exists []; by rewrite app_nil_r).
      apply add_enabled_prefix. }
    exists (rest1 ++ rest2). by rewrite app_assoc.
Qed.

(** X1. The check of [enabled_count] decides nothing: for a child device
    the loop over the devices does exactly what the entity loop alone
    would do, because that loop adds only enabled entities. *)
Theorem add_child_guard_redundant (root : string)
    (entities : list er.RegistryEntry) (acc : dict er.RegistryEntry)
    (device : dr.DeviceEntry) :
  add_child root entities acc device
  = if bool_decide (dr.via_device_id device = Some root)
    then add_enabled (dr.id device) entities acc
    else acc.
Proof.
  unfold add_child. case_bool_decide; [|done].
  destruct (0 <? enabled_count (dr.id device) entities)%nat eqn:Hcount; [done|].
  apply Nat.ltb_ge in Hcount. symmetry. apply add_enabled_none.
  apply enabled_count_zero. lia.
Qed.

(** X2. A device id that no entity and no device refers to gives an empty
    Collected Entity Set; nothing is raised. *)
Theorem collect_device_entities_unknown (h : core.HomeAssistant)
    (root : string) :
  (∀ e, e ∈ core.entity_registry h → er.device_id e ≠ Some root) →
  (∀ d, d ∈ core.device_registry h → dr.via_device_id d ≠ Some root) →
  collect_device_entities h root = [].
Proof.
  intros Hents Hdevs. unfold collect_device_entities.
  rewrite children_none by done. apply add_enabled_none.
  intros e He. apply not_true_iff_false. intros [Hdev _]%enabled_on_true.
  by apply (Hents e).
Qed.

Lemma collect_device_entities_unknown_witness :
  all_entities Sample.stranger = [].
Proof.
  apply (collect_device_entities_unknown (Sample.home "87") "no such device").
  - intros e He. cbn in He.
    repeat (apply elem_of_cons in He as [->|He]); try discriminate.
    by apply elem_of_nil in He.
  - intros d Hd. cbn in Hd.
    repeat (apply elem_of_cons in Hd as [->|Hd]); try discriminate.
    by apply elem_of_nil in Hd.
Defined.

(** X3. The Collected Entity Set never has more entries than the registry
    has enabled entities, whatever the device hierarchy is. *)
Theorem collect_device_entities_bound (h : core.HomeAssistant)
    (root : string) :
  length (collect_device_entities h root)
  ≤ length (List.filter (λ e, not_ (er.disabled_by e))
              (core.entity_registry h)).
Proof.
  set (entities := core.entity_registry h).
  set (enabled := List.filter (λ e, not_ (er.disabled_by e)) entities).
  assert (Hlen : length (collect_device_entities h root)
                 = length (dict_keys (collect_device_entities h root))).
  { unfold dict_keys. by rewrite length_map. }
  rewrite Hlen, <- (length_map er.entity_id enabled).
  apply submseteq_length, NoDup_submseteq.
  - apply children_NoDup, add_enabled_NoDup. constructor.
  - intros k [e Hget]%dict_get_is_Some.
    assert (er.entity_id e = k
            ∧ collected_from root entities (core.device_registry h) e)
      as [<- (He & Hdis & _)].
    { revert k e Hget.
      apply (children_sound root entities (core.device_registry h)
               (core.device_registry h)); [done|].
      apply add_enabled_sound; [|done].
      intros e He [Hdev Hdis]%enabled_on_true. split_and!; auto. }
    apply (list_elem_of_fmap_2 er.entity_id), list_elem_of_In, filter_In.
    split; [by apply list_elem_of_In | by rewrite Hdis].
Qed.

End collect_more.

Section resolution_more.

Import Py Huawei.

Lemma search_Some (st : gmap string core.State) (keys : list string)
    (name : string) (s : core.State) :
  search st keys name = Some s →
  ∃ k, k ∈ keys ∧ ends_with k name ∧ st !! k = Some s.
Proof.
  induction keys as [|k0 keys IH]; simpl; [done|].
  destruct (endswith k0 name) eqn:Hk0.
  - intros Hs. exists k0.
    split_and!; [apply list_elem_of_here | by apply ends_with_true | done].
  - intros (k & Hk & Hends & Hs)%IH. exists k.
    split_and!; [by apply list_elem_of_further | done..].
Qed.

(** X4. Entities of the root device take precedence: when an enabled
    entity of the root device ends with the logical name, resolution on
    the constructed adapter returns the state of the first such entity in
    registry order, whatever the child devices contribute. *)
Theorem root_entities_resolve_first (h : core.HomeAssistant)
    (root name : string) (l1 l2 : list er.RegistryEntry)
    (e0 : er.RegistryEntry) :
  NoDup (map er.entity_id (core.entity_registry h)) →
  name ≠ "inverter_power_derating" →
  List.filter (enabled_on root) (core.entity_registry h) = l1 ++ e0 :: l2 →
  (∀ e, e ∈ l1 → ¬ ends_with (er.entity_id e) name) →
  ends_with (er.entity_id e0) name →
  find_entity_state name (init h root)
  = Returns (core.states h !! er.entity_id e0) (init h root).
Proof.
  intros Hids Hne Hroot Hl1 He0.
  rewrite find_entity_state_search by done. f_equal.
  unfold init, collect_device_entities; cbn [hass all_entities].
  destruct (children_prefix root (core.entity_registry h)
              (core.device_registry h)
              (add_enabled root (core.entity_registry h) [])) as [rest ->].
  rewrite add_enabled_fresh by done. cbn [app]. rewrite Hroot.
  unfold dict_keys. rewrite map_map, map_app. cbn [map fst].
  rewrite <- app_assoc. cbn [app]. apply search_first; [|done].
  intros k (e & -> & He)%list_elem_of_fmap. by apply Hl1.
Qed.

Lemma root_entities_resolve_first_witness :
  find_entity_state "active_power" Sample.inverter
  = Returns (Some (Sample.text "5000")) Sample.inverter.
Proof.
  apply (root_entities_resolve_first (Sample.home "87") "inv" "active_power"
           []
           [ Sample.entity "sensor.inverter_pv_1_voltage" "inv" None;
             Sample.entity "sensor.inverter_pv_1_current" "inv" None;
             Sample.entity "sensor.inverter_pv_2_voltage" "inv" None;
             Sample.entity "sensor.inverter_pv_2_current" "inv" None;
             Sample.entity "sensor.inverter_internal_temperature" "inv" None;
             Sample.entity "sensor.inverter_power_meter_frequency" "inv" None ]
           (Sample.entity "sensor.inverter_active_power" "inv" None)).
  - apply (bool_decide_unpack _). vm_compute. exact I.
  - discriminate.
  - reflexivity.
  - by intros e ?%elem_of_nil.
  - by exists "sensor.inverter_".
Defined.

(** X5. Resolution on the constructed adapter never reads the state of an
    entity outside the device hierarchy or of a disabled entity: a state
    returned for a name other than the derating name is the state of an
    enabled entity of the root device or of one of its children, whose id
    ends with the name. *)
Theorem resolution_reads_collected_only (h : core.HomeAssistant)
    (root name : string) (s : core.State) :
  name ≠ "inverter_power_derating" →
  find_entity_state name (init h root) = Returns (Some s) (init h root) →
  ∃ e, collected_from root (core.entity_registry h)
         (core.device_registry h) e
       ∧ ends_with (er.entity_id e) name
       ∧ core.states h !! er.entity_id e = Some s.
Proof.
  intros Hne. rewrite find_entity_state_search by done.
  intros [= (k & Hk & Hends & Hs)%search_Some].
  cbn [hass all_entities init] in Hk, Hs.
  apply dict_get_is_Some in Hk as [e Hget].
  destruct (children_sound root (core.entity_registry h)
              (core.device_registry h) (core.device_registry h)
              (add_enabled root (core.entity_registry h) []))
    with (k := k) (e := e) as [<- He]; [done | | done |].
  { apply add_enabled_sound; [|done].
    intros e' He' [Hdev Hdis]%enabled_on_true. split_and!; auto. }
  by exists e.
Qed.

Lemma resolution_reads_collected_only_witness :
  ∃ e, collected_from "inv" Sample.entities Sample.devices e
       ∧ ends_with (er.entity_id e) "bus_voltage"
       ∧ Sample.states "87" !! er.entity_id e = Some (Sample.text "12.7").
Proof.
  apply (resolution_reads_collected_only (Sample.home "87") "inv"
           "bus_voltage" (Sample.text "12.7")).
  - discriminate.
  - reflexivity.
Defined.

(** With an empty Collected Entity Set every name but the derating name
    resolves to nothing. *)
Lemma float_read_empty (self : HuaweiInverter) (name : string)
    (default : float) :
  all_entities self = [] → name ≠ "inverter_power_derating" →
  float_read self name default = default.
Proof.
  intros Hempty Hne. unfold float_read.
  assert (Hr : find_entity_state name self = Returns None self).
  { rewrite find_entity_state_search by done. by rewrite Hempty. }
  by rewrite (get_state_float_resolved _ _ _ _ Hr).
Qed.

End resolution_more.

Section extraction_more.

Import Py Huawei qilowatt.

(** X6. [get_state_text] never raises: it returns the state text as it
    is when the name resolves to a state whose text is none of [unknown],
    [unavailable] and the empty text, and the default otherwise. It does
    not parse the text, so a text that [get_state_float] rejects is
    returned unchanged. *)
Theorem get_state_text_spec (self : HuaweiInverter) (name default : string)
    (r : option core.State) :
  find_entity_state name self = Returns r self →
  (r = None → get_state_text name default self = Returns default self)
  ∧ (∀ s, r = Some s → core.state s ∈ sentinels →
          get_state_text name default self = Returns default self)
  ∧ (∀ s, r = Some s → core.state s ∉ sentinels →
          get_state_text name default self = Returns (core.state s) self).
Proof.
  intros Hr. unfold get_state_text, mbind, method_bind. rewrite Hr.
  split_and!.
  - by intros ->.
  - intros s -> Hs%has_data_false. by rewrite Hs.
  - intros s -> Hs%has_data_true. by rewrite Hs.
Qed.

Lemma get_state_text_spec_witness :
  get_state_text "internal_temperature" "none" Sample.inverter
  = Returns "N/A" Sample.inverter.
Proof.
  destruct (get_state_text_spec Sample.inverter "internal_temperature" "none"
              (Some (Sample.text "N/A"))) as (_ & _ & Htext);
    [reflexivity|].
  apply (Htext (Sample.text "N/A")); [reflexivity|].
  apply has_data_true. reflexivity.
Defined.

(** X7. A state text that parses to a NaN, as [nan] does, passes through
    [get_state_float] as a NaN, whereas [get_state_int] answers with its
    default: converting a NaN to an integer raises [ValueError], which
    the handler catches. *)
Theorem nan_state_float_and_int (self : HuaweiInverter) (name : string)
    (default_float : float) (default_int : Z) (s : core.State) (f : float) :
  find_entity_state name self = Returns (Some s) self →
  core.state s ∉ sentinels →
  float_of_str (core.state s) = Ok f →
  Prim2SF f = S754_nan →
  get_state_float name default_float self = Returns f self
  ∧ get_state_int name default_int self = Returns default_int self.
Proof.
  intros Hr Hs%has_data_true Hf Hnan. split.
  - by rewrite (get_state_float_resolved _ _ _ _ Hr), Hs, Hf.
  - rewrite (get_state_int_resolved _ _ _ _ Hr), Hs, Hf.
    unfold int_of_float. by rewrite Hnan.
Qed.

Lemma nan_state_float_and_int_witness :
  get_state_float "state_of_capacity" 50 Sample.inverter_nan
  = Returns nan Sample.inverter_nan
  ∧ get_state_int "state_of_capacity" 50 Sample.inverter_nan
    = Returns 50%Z Sample.inverter_nan.
Proof.
  apply (nan_state_float_and_int Sample.inverter_nan "state_of_capacity"
           50 50 (Sample.text "nan") nan).
  - reflexivity.
  - apply has_data_true. reflexivity.
  - reflexivity.
  - reflexivity.
Defined.

Lemma get_state_int_outcomes (self : HuaweiInverter) (name : string)
    (default : Z) :
  (∃ n, get_state_int name default self = Returns n self)
  ∨ get_state_int name default self = Raises OverflowError self.
Proof.
  rewrite (get_state_int_resolved _ _ _ _ (find_entity_state_total _ _)).
  destruct (resolved self name) as [s|]; [|by eauto].
  destruct (has_data s); [|by eauto].
  destruct (float_of_str (core.state s)) as [f|]; [|by eauto].
  unfold int_of_float. destruct (Prim2SF f); by eauto.
Qed.

(** X8. Whatever the states are, [get_state_float] returns and leaves the
    adapter as it is, and so does [get_state_int] unless it raises
    [OverflowError]; no other exception leaves either of them. *)
Theorem float_and_int_outcomes (self : HuaweiInverter) (name : string)
    (default_float : float) (default_int : Z) :
  (∃ x, get_state_float name default_float self = Returns x self)
  ∧ ((∃ n, get_state_int name default_int self = Returns n self)
     ∨ get_state_int name default_int self = Raises OverflowError self).
Proof.
  split; [eexists; apply get_state_float_total|].
  apply get_state_int_outcomes.
Qed.

(** ** The rest of the two records *)

(** X9. Whatever the states are, [get_energy_data] returns a record whose
    [Voltage] and [Current] hold the three phase readings in the order
    a, b, c and whose [Frequency] is the frequency reading, none of them
    negated; the voltages are also what it stores in [voltage]. *)
Theorem get_energy_data_voltage_current_frequency (self : HuaweiInverter)
    (voltage_a voltage_b voltage_c current_a current_b current_c
     frequency : float) :
  get_state_float "power_meter_phase_a_voltage" 0 self
  = Returns voltage_a self →
  get_state_float "power_meter_phase_b_voltage" 0 self
  = Returns voltage_b self →
  get_state_float "power_meter_phase_c_voltage" 0 self
  = Returns voltage_c self →
  get_state_float "power_meter_phase_a_current" 0 self
  = Returns current_a self →
  get_state_float "power_meter_phase_b_current" 0 self
  = Returns current_b self →
  get_state_float "power_meter_phase_c_current" 0 self
  = Returns current_c self →
  get_state_float "power_meter_frequency" 0 self = Returns frequency self →
  ∃ energy self',
    get_energy_data self = Returns energy self'
    ∧ Voltage energy = [voltage_a; voltage_b; voltage_c]
    ∧ Current energy = [current_a; current_b; current_c]
    ∧ Frequency energy = frequency
    ∧ voltage self' = Some [voltage_a; voltage_b; voltage_c].
Proof.
  intros Hva%float_read_returns Hvb%float_read_returns
         Hvc%float_read_returns Hca%float_read_returns
         Hcb%float_read_returns Hcc%float_read_returns
         Hf%float_read_returns.
  do 2 eexists. split; [apply get_energy_data_run|].
  simpl. by rewrite Hva, Hvb, Hvc, Hca, Hcb, Hcc, Hf.
Qed.

Lemma get_energy_data_voltage_current_frequency_witness :
  ∃ energy self',
    get_energy_data Sample.grid_inverter = Returns energy self'
    ∧ Voltage energy = [230; 231.5; 233]%float
    ∧ Current energy = [1.5; 2.25; 3]%float
    ∧ Frequency energy = 50.25%float
    ∧ voltage self' = Some [230; 231.5; 233]%float.
Proof.
  apply (get_energy_data_voltage_current_frequency Sample.grid_inverter
           230 231.5 233 1.5 2.25 3 50.25); reflexivity.
Defined.

(** X10. With an empty Collected Entity Set [get_energy_data] still
    returns: every reading is the default 0, so the record holds zeros,
    and the negated fields [Power] and [Total] hold negative zeros. *)
Theorem get_energy_data_empty (self : HuaweiInverter) :
  all_entities self = [] →
  get_energy_data self
  = Returns
      {| Power := [-0; -0; -0]%float;
         Today := 0;
         Total := (-0)%float;
         Current := [0; 0; 0]%float;
         Voltage := [0; 0; 0]%float;
         Frequency := 0%float |}
      (with_voltage (Some [0; 0; 0]%float) self).
Proof.
  intros Hempty. rewrite get_energy_data_run.
  by rewrite !(float_read_empty self) by done.
Qed.

Lemma get_energy_data_empty_witness :
  get_energy_data Sample.stranger
  = Returns
      {| Power := [-0; -0; -0]%float;
         Today := 0;
         Total := (-0)%float;
         Current := [0; 0; 0]%float;
         Voltage := [0; 0; 0]%float;
         Frequency := 0%float |}
      (with_voltage (Some [0; 0; 0]%float) Sample.stranger).
Proof.
  apply (get_energy_data_empty Sample.stranger). reflexivity.
Defined.

(** X11. Whenever the battery charge is read, the remaining fields of the
    record of [get_metrics_data] are: the voltages and currents of the two
    strings, the three battery readings and the battery temperature as
    one-element arrays, the battery charge, the inverter temperature, and
    the constants [LoadCurrent] = three zeros, [AlarmCodes] = six zeros
    and [InverterStatus] = 2. *)
Theorem get_metrics_data_other_fields (self : HuaweiInverter)
    (pv_voltage_1 pv_current_1 pv_voltage_2 pv_current_2 : float)
    (battery_power battery_current battery_voltage : float)
    (battery_temperature inverter_temperature : float) (soc : Z) :
  get_state_float "pv_1_voltage" 0 self = Returns pv_voltage_1 self →
  get_state_float "pv_1_current" 0 self = Returns pv_current_1 self →
  get_state_float "pv_2_voltage" 0 self = Returns pv_voltage_2 self →
  get_state_float "pv_2_current" 0 self = Returns pv_current_2 self →
  get_state_float "charge_discharge_power" 0 self
  = Returns battery_power self →
  get_state_float "bus_current" 0 self = Returns battery_current self →
  get_state_float "bus_voltage" 0 self = Returns battery_voltage self →
  get_state_float "battery_1_bms_temperature" 0 self
  = Returns battery_temperature self →
  get_state_float "internal_temperature" 0 self
  = Returns inverter_temperature self →
  get_state_int "state_of_capacity" 0 self = Returns soc self →
  ∃ metrics,
    get_metrics_data self = Returns metrics self
    ∧ PvVoltage metrics = [pv_voltage_1; pv_voltage_2]
    ∧ PvCurrent metrics = [pv_current_1; pv_current_2]
    ∧ BatteryPower metrics = [battery_power]
    ∧ BatteryCurrent metrics = [battery_current]
    ∧ BatteryVoltage metrics = [battery_voltage]
    ∧ BatteryTemperature metrics = [battery_temperature]
    ∧ BatterySOC metrics = soc
    ∧ InverterTemperature metrics = inverter_temperature
    ∧ LoadCurrent metrics = [0; 0; 0]%float
    ∧ AlarmCodes metrics = [0; 0; 0; 0; 0; 0]%Z
    ∧ InverterStatus metrics = 2%Z.
Proof.
  intros Hv1%float_read_returns Hc1%float_read_returns
         Hv2%float_read_returns Hc2%float_read_returns
         Hbp%float_read_returns Hbc%float_read_returns
         Hbv%float_read_returns Hbt%float_read_returns
         Hit%float_read_returns Hsoc.
  eexists. split; [by apply get_metrics_data_run|].
  simpl. by rewrite Hv1, Hc1, Hv2, Hc2, Hbp, Hbc, Hbv, Hbt, Hit.
Qed.

Lemma get_metrics_data_other_fields_witness :
  ∃ metrics,
    get_metrics_data Sample.inverter = Returns metrics Sample.inverter
    ∧ PvVoltage metrics = [40; 0]%float
    ∧ PvCurrent metrics = [5; 0]%float
    ∧ BatteryVoltage metrics = [0x1.9666666666666p+3]%float
    ∧ BatterySOC metrics = 87%Z
    ∧ InverterTemperature metrics = 0%float.
Proof.
  destruct (get_metrics_data_other_fields Sample.inverter
              40 5 0 0 0 0 0x1.9666666666666p+3 0 0 87)
    as (metrics & Hrun & Hpv & Hpc & _ & _ & Hbv & _ & Hsoc & Hit & _);
    [reflexivity..|].
  by exists metrics.
Defined.

(** X12. Whenever the battery charge is read, the export limit of the
    metrics record comes from the global entity
    [number.inverter_power_derating] alone: when that entity has a state
    whose text parses, [GridExportLimit] is the parsed value, whatever
    the Collected Entity Set holds. *)
Theorem get_metrics_data_export_limit (self : HuaweiInverter)
    (s : core.State) (limit : float) (soc : Z) :
  core.states (hass self) !! "number.inverter_power_derating" = Some s →
  core.state s ∉ sentinels →
  float_of_str (core.state s) = Ok limit →
  get_state_int "state_of_capacity" 0 self = Returns soc self →
  ∃ metrics,
    get_metrics_data self = Returns metrics self
    ∧ GridExportLimit metrics = limit.
Proof.
  intros Hstate Hs%has_data_true Hlimit Hsoc.
  eexists. split; [by apply get_metrics_data_run|].
  simpl. unfold float_read.
  rewrite (get_state_float_resolved _ _ _ _ (derating_lookup_run self)).
  by rewrite Hstate, Hs, Hlimit.
Qed.

Lemma get_metrics_data_export_limit_witness :
  ∃ metrics,
    get_metrics_data Sample.decoy = Returns metrics Sample.decoy
    ∧ GridExportLimit metrics = 8000%float.
Proof.
  apply (get_metrics_data_export_limit Sample.decoy (Sample.text "8000")
           8000 0).
  - reflexivity.
  - apply has_data_true. reflexivity.
  - reflexivity.
  - reflexivity.
Defined.

(** X13. [get_metrics_data] writes no attribute, and the one exception
    that can leave it is the [OverflowError] of the battery charge read:
    it either returns on the unchanged adapter or raises [OverflowError]
    on the unchanged adapter. *)
Theorem get_metrics_data_outcomes (self : HuaweiInverter) :
  (∃ metrics, get_metrics_data self = Returns metrics self)
  ∨ get_metrics_data self = Raises OverflowError self.
Proof.
  destruct (get_state_int_outcomes self "state_of_capacity" 0)
    as [[soc Hsoc] | Hraise].
  - left. eexists. by apply get_metrics_data_run.
  - right. by apply get_metrics_data_raises.
Qed.

End extraction_more.

Section overlap.

Import Py Huawei.

Lemma ends_with_trans (k long short : string) :
  ends_with k long → ends_with long short → ends_with k short.
Proof.
  intros [p ->] [q ->]. exists (p +:+ q).
  induction p as [|a p IH]; [done|].
  change (String a (p +:+ q +:+ short) = String a ((p +:+ q) +:+ short)).
  by rewrite IH.
Qed.

Lemma search_agree (st : gmap string core.State) (keys : list string)
    (n1 n2 : string) :
  (∀ k, k ∈ keys → endswith k n1 = endswith k n2) →
  search st keys n1 = search st keys n2.
Proof.
  induction keys as [|k0 keys IH]; intros Hsame; simpl; [done|].
  rewrite (Hsame k0) by apply list_elem_of_here.
  rewrite IH; [done|]. intros k Hk. by apply Hsame, list_elem_of_further.
Qed.

(** X15. Logical names overlap: when one name is a suffix of a longer
    one, as [active_power] is of [power_meter_active_power], and every
    collected key that ends with the short name ends with the long one,
    both names resolve to the same state. An adapter without an active
    power entity of its own thus reads the inverter's active power from
    the grid meter. *)
Theorem overlapping_names_resolve_alike (self : HuaweiInverter)
    (short long : string) :
  short ≠ "inverter_power_derating" →
  long ≠ "inverter_power_derating" →
  ends_with long short →
  (∀ k, k ∈ dict_keys (all_entities self) →
        ends_with k short → ends_with k long) →
  find_entity_state short self = find_entity_state long self.
Proof.
  intros Hshort Hlong Hsuffix Hkeys.
  rewrite !find_entity_state_search by done. f_equal.
  apply search_agree. intros k Hk.
  destruct (endswith k long) eqn:Hkl.
  - apply ends_with_true. apply ends_with_true in Hkl.
    by apply (ends_with_trans k long short).
  - apply ends_with_false. apply ends_with_false in Hkl.
    intros Hks. by apply Hkl, Hkeys.
Qed.

Lemma overlapping_names_resolve_alike_witness :
  find_entity_state "active_power" Sample.meter_only
  = find_entity_state "power_meter_active_power" Sample.meter_only
  ∧ find_entity_state "active_power" Sample.meter_only
    = Returns (Some (Sample.text "-1200")) Sample.meter_only.
Proof.
  split; [|reflexivity].
  apply (overlapping_names_resolve_alike Sample.meter_only
           "active_power" "power_meter_active_power").
  - discriminate.
  - discriminate.
  - by exists "power_meter_".
  - intros k Hk _. cbn in Hk. apply list_elem_of_singleton in Hk as ->.
    by exists "sensor.meter_".
Defined.

End overlap.
